(** * Side Project Launcher: a shallow embedding and its specification

    The repository holds two Python scripts.

    - [side_project_launcher.py] fetches three LaunchDarkly AI Configs by
      direct function calls and prints what it got.
    - [side_project_launcher_langgraph.py] asks the user seven questions,
      runs three stages (config fetch, optional model call, one field of
      the state assigned) and an output writer as a four-node linear
      LangGraph graph.

    Python functions become computations of a small monad [M] that threads
    a [World] (file system, standard input, and the history of everything
    the program did to the outside) and may raise.  The LaunchDarkly SDK,
    the model client, the clock and Python's Unicode tables are not part
    of the repository: they are interfaces (type classes) here, and every
    theorem holds for all their implementations. *)

From Stdlib Require Import NArith List String Ascii Lia.
From stdpp Require Import base option list gmap.
Import ListNotations.
Local Open Scope N_scope.

(** ** Python text

    A Python [str] is a sequence of Unicode code points; slicing, [len]
    and the per-character tests of the source count code points.  The
    string literals of the source are all ASCII and are written with
    [lit]. *)

Abbreviation str := (list N).

Definition lit (s : string) : str :=
  map N_of_ascii (list_ascii_of_string s).
Arguments lit : simpl never.

(** [s.replace(old, new)] for one-character [old] and [new], the only use
    the source makes of it. *)
Definition str_replace (old new : N) (s : str) : str :=
  map (fun c => if N.eqb c old then new else c) s.

(** [s[:n]] *)
Definition str_prefix (n : nat) (s : str) : str := take n s.

(** [s * n] *)
Definition str_repeat (s : str) (n : nat) : str := concat (replicate n s).

Definition SPACE : N := 32.
Definition SLASH : N := 47.
Definition HYPHEN : N := 45.
Definition PERCENT : N := 37.
Definition NEWLINE : str := [10].

Definition is_digit (c : N) : bool := (48 <=? c) && (c <=? 57).

(** What the source takes from Python's Unicode database. *)
Class Unicode := {
  str_lower : str -> str;      (* str.lower *)
  chr_isalnum : N -> bool;     (* str.isalnum on one character *)
  str_strip : str -> str       (* str.strip *)
}.

(** ** datetime and strftime

    Only the fields the two format strings of the source read.  A
    [datetime] has 1 <= year <= 9999, month and day of two digits at
    most, hour < 24, minute < 60; on that range the zero-padded decimal
    fields below are what [strftime] prints. *)

Record datetime := {
  year : N; month : N; day : N; hour : N; minute : N
}.

Definition digit (d : N) : N := 48 + d mod 10.

Definition pad2 (n : N) : str := [digit (n / 10); digit n].
Definition pad4 (n : N) : str :=
  [digit (n / 1000); digit (n / 100); digit (n / 10); digit n].

Definition directive (d : N) (t : datetime) : str :=
  if N.eqb d 89 then pad4 (year t)          (* %Y *)
  else if N.eqb d 109 then pad2 (month t)   (* %m *)
  else if N.eqb d 100 then pad2 (day t)     (* %d *)
  else if N.eqb d 72 then pad2 (hour t)     (* %H *)
  else if N.eqb d 77 then pad2 (minute t)   (* %M *)
  else [PERCENT; d].

Fixpoint strftime (fmt : str) (t : datetime) : str :=
  match fmt with
  | [] => []
  | c :: rest =>
      if N.eqb c PERCENT then
        match rest with
        | [] => [c]
        | d :: rest' => directive d t ++ strftime rest' t
        end
      else c :: strftime rest t
  end.

(** ** Exceptions and results *)

Inductive Exn :=
| EOFError                      (* input() at end of input *)
| ModelError (detail : str)     (* whatever the model client raises *)
| GraphRecursionError           (* LangGraph's step limit *)
| GraphValueError (detail : str)
| FileNotFoundError (path : str).

Inductive Result (A : Type) :=
| Ok (a : A)
| Raise (e : Exn).
Arguments Ok {A} a.
Arguments Raise {A} e.

(** ** The LaunchDarkly context builder, as the source uses it *)

Class ContextSDK := {
  Context : Type;
  ContextBuilder : Type;
  AttrValue : Type;
  Context_builder : str -> ContextBuilder;                          (* Context.builder(key) *)
  builder_set : ContextBuilder -> str -> AttrValue -> ContextBuilder; (* builder.set(k, v) *)
  builder_build : ContextBuilder -> Context                          (* builder.build() *)
}.

(** ** ConfigResult: what [ai_client.agent_config] hands back *)

Record AIConfig := {
  enabled : bool;
  model_name : str;       (* config.model.name *)
  instructions : str;
  tracker : N             (* handle of config.tracker *)
}.

Inductive Message :=
| SystemMessage (content : str)
| HumanMessage (content : str).

(** ** SideProjectState *)

Record SideProjectState := {
  user_id : str;
  idea : str;
  target_audience : str;
  problem_statement : str;
  unique_value_prop : str;
  expected_users : str;
  budget : str;
  team_expertise : str;
  idea_validation : str;
  landing_page_copy : str;
  tech_stack : str;
  output_dir : str
}.

(** The three keys the stages assign. *)
Inductive OutputField := IdeaValidation | LandingPageCopy | TechStack.

Definition get_output (f : OutputField) (s : SideProjectState) : str :=
  match f with
  | IdeaValidation => idea_validation s
  | LandingPageCopy => landing_page_copy s
  | TechStack => tech_stack s
  end.

(** [state[f] = v] on the dictionary. *)
Definition set_output (f : OutputField) (v : str) (s : SideProjectState)
  : SideProjectState :=
  {| user_id := user_id s;
     idea := idea s;
     target_audience := target_audience s;
     problem_statement := problem_statement s;
     unique_value_prop := unique_value_prop s;
     expected_users := expected_users s;
     budget := budget s;
     team_expertise := team_expertise s;
     idea_validation :=
       match f with IdeaValidation => v | _ => idea_validation s end;
     landing_page_copy :=
       match f with LandingPageCopy => v | _ => landing_page_copy s end;
     tech_stack :=
       match f with TechStack => v | _ => tech_stack s end;
     output_dir := output_dir s |}.

(** ** The world

    A directory is a finite map from file names to bodies; the file
    system maps the path text of each existing directory to its
    contents.  Faults of the operating system are outside the model. *)

Abbreviation Directory := (gmap str str).
Abbreviation FileSystem := (gmap str (gmap str str)).

Section WithSDK.
Context `{sdk : ContextSDK}.

(** Everything the program does to its surroundings, in order, with the
    answer it received. *)
Inductive Event :=
| EStdout (text : str)
| EStdin (line : str)
| EConfig (key : str) (ctx : Context) (variables : list (str * str))
          (answer : AIConfig)
| ELlm (model : str) (messages : list Message) (reply : Result str)
| ETrackSuccess (handle : N)
| EAssign (field : OutputField) (value : str)
| EClock (t : datetime)
| EMkdir (path : str)
| EWriteText (dir name body : str)
| EFlush.

Record World := {
  w_fs : FileSystem;
  w_stdin : list str;
  w_trace : list Event
}.

(** The external services.  Each answer may depend on the request and on
    the whole history so far, so that two calls need not agree. *)
Class Services := {
  agent_config : list Event -> str -> Context -> list (str * str) -> AIConfig;
  llm_invoke : list Event -> str -> list Message -> Result str;
  clock : list Event -> datetime
}.

Definition M (A : Type) : Type := World -> World * Result A.

Definition ret {A} (a : A) : M A := fun w => (w, Ok a).

Definition bind {A B} (m : M A) (k : A -> M B) : M B :=
  fun w =>
    match m w with
    | (w', Ok a) => k a w'
    | (w', Raise e) => (w', Raise e)
    end.

Definition raise {A} (e : Exn) : M A := fun w => (w, Raise e).

Definition log (e : Event) (w : World) : World :=
  {| w_fs := w_fs w; w_stdin := w_stdin w; w_trace := w_trace w ++ [e] |}.

#[global] Instance M_ret : MRet M := @ret.
#[global] Instance M_bind : MBind M := fun A B k m => bind m k.
#[global] Instance M_fmap : FMap M :=
  fun A B f m => bind m (fun a => ret (f a)).

End WithSDK.

(** ** Primitive operations *)

Section Primitives.
Context `{sdk : ContextSDK} `{svc : !Services}.

(** [print(text)] *)
Definition print (text : str) : M unit :=
  fun w => (log (EStdout (text ++ NEWLINE)) w, Ok tt).

(** [input(prompt)]: the prompt goes to standard output, one line is
    taken from standard input, [EOFError] when there is none. *)
Definition input (prompt : str) : M str :=
  fun w =>
    let w1 := log (EStdout prompt) w in
    match w_stdin w1 with
    | [] => (w1, Raise EOFError)
    | line :: rest =>
        (log (EStdin line)
           {| w_fs := w_fs w1; w_stdin := rest; w_trace := w_trace w1 |},
         Ok line)
    end.

(** [AIAgentConfigDefault(enabled=...)] *)
Definition AIAgentConfigDefault (e : bool) : AIConfig :=
  {| enabled := e; model_name := []; instructions := []; tracker := 0 |}.

(** [ai_client.agent_config(key, context, fallback, variables)].  The SDK
    answers with the fallback by itself when it cannot evaluate, so the
    call does not raise. *)
Definition ai_client_agent_config (key : str) (ctx : Context)
    (fallback : AIConfig) (variables : list (str * str)) : M AIConfig :=
  fun w =>
    let answer := agent_config (w_trace w) key ctx variables in
    (log (EConfig key ctx variables answer) w, Ok answer).

(** [ChatAnthropic(model=...).invoke(messages)], giving [response.content]. *)
Definition ChatAnthropic_invoke (model : str) (messages : list Message)
  : M str :=
  fun w =>
    let reply := llm_invoke (w_trace w) model messages in
    (log (ELlm model messages reply) w, reply).

(** [config.tracker.track_success()] *)
Definition track_success (handle : N) : M unit :=
  fun w => (log (ETrackSuccess handle) w, Ok tt).

(** [state[field] = value]; the computation gives the dictionary back. *)
Definition assign (field : OutputField) (value : str)
    (state : SideProjectState) : M SideProjectState :=
  fun w => (log (EAssign field value) w, Ok (set_output field value state)).

(** [datetime.now()] *)
Definition datetime_now : M datetime :=
  fun w => let t := clock (w_trace w) in (log (EClock t) w, Ok t).

(** [path.mkdir(parents=True, exist_ok=True)]: an existing directory is
    left as it is, with whatever it holds.  Ancestor directories are not
    tracked. *)
Definition mkdir_p (path : str) : M unit :=
  fun w =>
    let fs' := match w_fs w !! path with
               | Some _ => w_fs w
               | None => <[path := ∅]> (w_fs w)
               end in
    (log (EMkdir path)
       {| w_fs := fs'; w_stdin := w_stdin w; w_trace := w_trace w |},
     Ok tt).

(** [(dir / name).write_text(body)]: creates or overwrites the file;
    [FileNotFoundError] when the directory does not exist. *)
Definition write_text (dir name body : str) : M unit :=
  fun w =>
    match w_fs w !! dir with
    | None => (w, Raise (FileNotFoundError dir))
    | Some d =>
        (log (EWriteText dir name body)
           {| w_fs := <[dir := <[name := body]> d]> (w_fs w);
              w_stdin := w_stdin w; w_trace := w_trace w |},
         Ok tt)
    end.

(** [ld_client.flush()] *)
Definition ld_client_flush : M unit :=
  fun w => (log EFlush w, Ok tt).

End Primitives.

(** ** side_project_launcher_langgraph.py *)

Section LangGraphScript.
Context `{sdk : ContextSDK} `{svc : !Services} `{uni : Unicode}.

Definition build_context (user_id : str) (attributes : list (str * AttrValue))
  : M Context :=
  let builder := Context_builder user_id in
  let builder :=
    fold_left (fun b kv => builder_set b (fst kv) (snd kv)) attributes builder in
  mret (builder_build builder).

Definition get_agent_config (config_key : str) (context : Context)
    (variables : option (list (str * str))) : M AIConfig :=
  let fallback := AIAgentConfigDefault false in
  ai_client_agent_config config_key context fallback
    (default [] variables).

Definition idea_validator_node (state : SideProjectState)
  : M SideProjectState :=
  print (NEWLINE ++ lit "[idea-validator] Analyzing your idea...");;
  context ← build_context (user_id state) [];
  config ← get_agent_config (lit "idea-validator") context (Some [
    (lit "idea", idea state);
    (lit "target_audience", target_audience state);
    (lit "problem_statement", problem_statement state)
  ]);
  if enabled config then
    let messages := [
      SystemMessage (instructions config);
      HumanMessage (lit "Please validate this idea and provide your analysis.")
    ] in
    response ← ChatAnthropic_invoke (model_name config) messages;
    state ← assign IdeaValidation response state;
    track_success (tracker config);;
    mret state
  else
    state ← assign IdeaValidation (lit "Config not enabled") state;
    mret state.

Definition landing_page_writer_node (state : SideProjectState)
  : M SideProjectState :=
  print (lit "[landing-page-writer] Writing landing page copy...");;
  context ← build_context (user_id state) [];
  config ← get_agent_config (lit "landing-page-writer") context (Some [
    (lit "idea", idea state);
    (lit "target_audience", target_audience state);
    (lit "unique_value_prop", unique_value_prop state)
  ]);
  if enabled config then
    let messages := [
      SystemMessage (instructions config);
      HumanMessage (lit "Please write the landing page copy.")
    ] in
    response ← ChatAnthropic_invoke (model_name config) messages;
    state ← assign LandingPageCopy response state;
    track_success (tracker config);;
    mret state
  else
    state ← assign LandingPageCopy (lit "Config not enabled") state;
    mret state.

Definition tech_stack_advisor_node (state : SideProjectState)
  : M SideProjectState :=
  print (lit "[tech-stack-advisor] Recommending tech stack...");;
  context ← build_context (user_id state) [];
  config ← get_agent_config (lit "tech-stack-advisor") context (Some [
    (lit "expected_users", expected_users state);
    (lit "budget", budget state);
    (lit "team_expertise", team_expertise state)
  ]);
  if enabled config then
    let messages := [
      SystemMessage (instructions config);
      HumanMessage (lit "Please recommend a tech stack.")
    ] in
    response ← ChatAnthropic_invoke (model_name config) messages;
    state ← assign TechStack response state;
    track_success (tracker config);;
    mret state
  else
    state ← assign TechStack (lit "Config not enabled") state;
    mret state.

(** The f-string of the summary, with the formatted time as [generated]. *)
Definition summary_text (state : SideProjectState) (generated : str) : str :=
  lit "# Side Project Summary" ++ NEWLINE ++
  NEWLINE ++
  lit "## Idea" ++ NEWLINE ++
  idea state ++ NEWLINE ++
  NEWLINE ++
  lit "## Target Audience" ++ NEWLINE ++
  target_audience state ++ NEWLINE ++
  NEWLINE ++
  lit "## Problem Statement" ++ NEWLINE ++
  problem_statement state ++ NEWLINE ++
  NEWLINE ++
  lit "## Unique Value Proposition" ++ NEWLINE ++
  unique_value_prop state ++ NEWLINE ++
  NEWLINE ++
  lit "## Technical Requirements" ++ NEWLINE ++
  lit "- Expected Users: " ++ expected_users state ++ NEWLINE ++
  lit "- Budget: " ++ budget state ++ NEWLINE ++
  lit "- Team Expertise: " ++ team_expertise state ++ NEWLINE ++
  NEWLINE ++
  lit "---" ++ NEWLINE ++
  lit "Generated: " ++ generated ++ NEWLINE.

Definition save_outputs_node (state : SideProjectState)
  : M SideProjectState :=
  print (lit "[saving] Writing output files...");;
  let output_dir := output_dir state in
  mkdir_p output_dir;;
  write_text output_dir (lit "01-idea-validation.md")
    (lit "# Idea Validation" ++ NEWLINE ++ NEWLINE ++ idea_validation state);;
  write_text output_dir (lit "02-landing-page.md")
    (lit "# Landing Page Copy" ++ NEWLINE ++ NEWLINE
       ++ landing_page_copy state);;
  write_text output_dir (lit "03-tech-stack.md")
    (lit "# Tech Stack Recommendation" ++ NEWLINE ++ NEWLINE
       ++ tech_stack state);;
  now ← datetime_now;
  let summary := summary_text state (strftime (lit "%Y-%m-%d %H:%M") now) in
  write_text output_dir (lit "00-summary.md") summary;;
  print (NEWLINE ++ lit "[done] Output saved to: " ++ output_dir ++ lit "/");;
  mret state.

(** *** The graph

    LangGraph is used for a graph in which every node has one successor.
    [invoke] starts at the entry point, calls the node's function on the
    current state, passes what it returns along the node's edge, stops
    at [END], and gives up after [recursion_limit] steps. *)

Inductive Target := ToNode (name : str) | END.

Record StateGraph := {
  g_nodes : gmap str (SideProjectState -> M SideProjectState);
  g_entry : option str;
  g_edges : list (str * Target)
}.

Definition new_StateGraph : StateGraph :=
  {| g_nodes := ∅; g_entry := None; g_edges := [] |}.

Definition add_node (name : str) (action : SideProjectState -> M SideProjectState)
    (g : StateGraph) : StateGraph :=
  {| g_nodes := <[name := action]> (g_nodes g);
     g_entry := g_entry g; g_edges := g_edges g |}.

Definition set_entry_point (name : str) (g : StateGraph) : StateGraph :=
  {| g_nodes := g_nodes g; g_entry := Some name; g_edges := g_edges g |}.

Definition add_edge (src : str) (dst : Target) (g : StateGraph) : StateGraph :=
  {| g_nodes := g_nodes g; g_entry := g_entry g;
     g_edges := g_edges g ++ [(src, dst)] |}.

Definition successor (g : StateGraph) (name : str) : option Target :=
  snd <$> find (fun e => bool_decide (fst e = name)) (g_edges g).

Definition recursion_limit : nat := 25.

Fixpoint run_from (steps : nat) (g : StateGraph) (name : str)
    (state : SideProjectState) : M SideProjectState :=
  match steps with
  | O => raise GraphRecursionError
  | S steps' =>
      match g_nodes g !! name with
      | None => raise (GraphValueError name)
      | Some action =>
          state' ← action state;
          match successor g name with
          | Some (ToNode next) => run_from steps' g next state'
          | Some END | None => mret state'
          end
      end
  end.

Definition invoke (g : StateGraph) (state : SideProjectState)
  : M SideProjectState :=
  match g_entry g with
  | None => raise (GraphValueError (lit "no entry point"))
  | Some name => run_from recursion_limit g name state
  end.

Definition build_side_project_graph : StateGraph :=
  let workflow := new_StateGraph in
  let workflow := add_node (lit "validate_idea") idea_validator_node workflow in
  let workflow := add_node (lit "write_landing_page") landing_page_writer_node workflow in
  let workflow := add_node (lit "recommend_stack") tech_stack_advisor_node workflow in
  let workflow := add_node (lit "save_outputs") save_outputs_node workflow in
  let workflow := set_entry_point (lit "validate_idea") workflow in
  let workflow := add_edge (lit "validate_idea") (ToNode (lit "write_landing_page")) workflow in
  let workflow := add_edge (lit "write_landing_page") (ToNode (lit "recommend_stack")) workflow in
  let workflow := add_edge (lit "recommend_stack") (ToNode (lit "save_outputs")) workflow in
  let workflow := add_edge (lit "save_outputs") END workflow in
  workflow.

(** *** get_user_input *)

(** The folder name made from the idea (lines 221 and 222). *)
Definition folder_name_of (idea : str) : str :=
  let folder_name :=
    str_replace SLASH HYPHEN
      (str_replace SPACE HYPHEN (str_prefix 30 (str_lower idea))) in
  filter (fun c => chr_isalnum c || N.eqb c HYPHEN = true) folder_name.

Definition banner : str := str_repeat (lit "=") 60.

Definition get_user_input : M SideProjectState :=
  print banner;;
  print (lit "SIDE PROJECT LAUNCHER");;
  print banner;;
  print (NEWLINE ++ lit "Answer a few questions about your side project idea:" ++ NEWLINE);;
  idea ← str_strip <$> input (lit "What's your idea? (e.g., AI-powered recipe app)" ++ NEWLINE ++ lit "> ");
  target_audience ← str_strip <$> input (NEWLINE ++ lit "Who is your target audience? (e.g., busy parents)" ++ NEWLINE ++ lit "> ");
  problem_statement ← str_strip <$> input (NEWLINE ++ lit "What problem does it solve? (e.g., no time to plan meals)" ++ NEWLINE ++ lit "> ");
  unique_value_prop ← str_strip <$> input (NEWLINE ++ lit "What's your unique value proposition? (e.g., snap a photo, get dinner)" ++ NEWLINE ++ lit "> ");
  expected_users ← str_strip <$> input (NEWLINE ++ lit "Expected users? (e.g., 10,000 monthly active users)" ++ NEWLINE ++ lit "> ");
  budget ← str_strip <$> input (NEWLINE ++ lit "Monthly budget for infrastructure? (e.g., $500/month)" ++ NEWLINE ++ lit "> ");
  team_expertise ← str_strip <$> input (NEWLINE ++ lit "Team's tech expertise? (e.g., Python, React, AWS)" ++ NEWLINE ++ lit "> ");
  let folder_name := folder_name_of idea in
  now ← datetime_now;
  let timestamp := strftime (lit "%Y%m%d-%H%M") now in
  let output_dir := lit "output/" ++ folder_name ++ lit "-" ++ timestamp in
  mret {|
    user_id := lit "user-" ++ timestamp;
    idea := idea;
    target_audience := target_audience;
    problem_statement := problem_statement;
    unique_value_prop := unique_value_prop;
    expected_users := expected_users;
    budget := budget;
    team_expertise := team_expertise;
    idea_validation := [];
    landing_page_copy := [];
    tech_stack := [];
    output_dir := output_dir
  |}.

(** The script's [__main__]. *)
Definition main : M unit :=
  initial_state ← get_user_input;
  print (NEWLINE ++ banner);;
  print (lit "Launching agents...");;
  print banner;;
  let app := build_side_project_graph in
  result ← invoke app initial_state;
  ld_client_flush;;
  print (NEWLINE ++ banner);;
  print (lit "Done! Check your output in: " ++ output_dir result ++ lit "/");;
  print banner.

End LangGraphScript.

(** ** side_project_launcher.py *)

Module Launcher.
Section LauncherScript.
Context `{sdk : ContextSDK} `{svc : !Services}.

Definition build_context (user_id : str) (attributes : list (str * AttrValue))
  : M Context :=
  let builder := Context_builder user_id in
  let builder :=
    fold_left (fun b kv => builder_set b (fst kv) (snd kv)) attributes builder in
  mret (builder_build builder).

Definition get_agent_config (config_key user_id : str)
    (variables : option (list (str * str))) : M AIConfig :=
  context ← build_context user_id [];
  let fallback := AIAgentConfigDefault false in
  ai_client_agent_config config_key context fallback (default [] variables).

Definition validate_idea (user_id idea target_audience problem_statement : str)
  : M (option AIConfig) :=
  config ← get_agent_config (lit "idea-validator") user_id (Some [
    (lit "idea", idea);
    (lit "target_audience", target_audience);
    (lit "problem_statement", problem_statement)
  ]);
  if enabled config then
    print (lit "[idea-validator] Model: " ++ model_name config);;
    mret (Some config)
  else
    print (lit "[idea-validator] Config not enabled");;
    mret None.

Definition write_landing_page (user_id idea target_audience unique_value_prop : str)
  : M (option AIConfig) :=
  config ← get_agent_config (lit "landing-page-writer") user_id (Some [
    (lit "idea", idea);
    (lit "target_audience", target_audience);
    (lit "unique_value_prop", unique_value_prop)
  ]);
  if enabled config then
    print (lit "[landing-page-writer] Model: " ++ model_name config);;
    mret (Some config)
  else
    print (lit "[landing-page-writer] Config not enabled");;
    mret None.

Definition recommend_tech_stack (user_id expected_users budget team_expertise : str)
  : M (option AIConfig) :=
  config ← get_agent_config (lit "tech-stack-advisor") user_id (Some [
    (lit "expected_users", expected_users);
    (lit "budget", budget);
    (lit "team_expertise", team_expertise)
  ]);
  if enabled config then
    print (lit "[tech-stack-advisor] Model: " ++ model_name config);;
    mret (Some config)
  else
    print (lit "[tech-stack-advisor] Config not enabled");;
    mret None.

(** [if config: print(f"\nInstructions:\n{config.instructions[:800]}...")] *)
Definition show_instructions (config : option AIConfig) : M unit :=
  match config with
  | Some c =>
      print (NEWLINE ++ lit "Instructions:" ++ NEWLINE
               ++ str_prefix 800 (instructions c) ++ lit "...")
  | None => mret tt
  end.

(** The [__main__] block, its literals read from [inputs]. *)
Definition main_on (inputs : SideProjectState) : M unit :=
  print banner;;
  print (lit "SIDE PROJECT LAUNCHER");;
  print banner;;
  print (NEWLINE ++ lit "1. VALIDATING IDEA...");;
  idea_config ← validate_idea (user_id inputs) (idea inputs)
                   (target_audience inputs) (problem_statement inputs);
  show_instructions idea_config;;
  print (NEWLINE ++ banner);;
  print (NEWLINE ++ lit "2. WRITING LANDING PAGE...");;
  landing_config ← write_landing_page (user_id inputs) (idea inputs)
                      (target_audience inputs) (unique_value_prop inputs);
  show_instructions landing_config;;
  print (NEWLINE ++ banner);;
  print (NEWLINE ++ lit "3. RECOMMENDING TECH STACK...");;
  stack_config ← recommend_tech_stack (user_id inputs) (expected_users inputs)
                    (budget inputs) (team_expertise inputs);
  show_instructions stack_config;;
  ld_client_flush;;
  print (NEWLINE ++ banner);;
  print (lit "Done! Use these configs with your preferred AI framework.");;
  print banner.

(** The literals of the [__main__] block. *)
Definition sample_inputs : SideProjectState :=
  {| user_id := lit "user-123";
     idea := lit "AI-powered recipe app that suggests meals from fridge photos";
     target_audience := lit "busy parents who hate meal planning";
     problem_statement := lit "no time to plan meals, food goes to waste";
     unique_value_prop :=
       lit "See what's in your fridge, get tonight's dinner in seconds";
     expected_users := lit "10,000 monthly active users";
     budget := lit "$500/month";
     team_expertise := lit "Python, React, some AWS experience";
     idea_validation := [];
     landing_page_copy := [];
     tech_stack := [];
     output_dir := [] |}.

Definition main : M unit := main_on sample_inputs.

End LauncherScript.
End Launcher.

(** ** Observations on a run *)

Section Observations.
Context `{sdk : ContextSDK}.

(** What a computation added to the history between two worlds. *)
Definition emitted (before after : World) : list Event :=
  drop (length (w_trace before)) (w_trace after).

Definition llm_calls (t : list Event)
  : list (str * list Message * Result str) :=
  omap (fun e => match e with
                 | ELlm model messages reply => Some (model, messages, reply)
                 | _ => None
                 end) t.

Definition config_fetches (t : list Event)
  : list (str * Context * list (str * str) * AIConfig) :=
  omap (fun e => match e with
                 | EConfig key ctx vars answer => Some (key, ctx, vars, answer)
                 | _ => None
                 end) t.

Definition config_requests (t : list Event)
  : list (str * Context * list (str * str)) :=
  fst <$> config_fetches t.

Definition assignments (t : list Event) : list (OutputField * str) :=
  omap (fun e => match e with
                 | EAssign field value => Some (field, value)
                 | _ => None
                 end) t.

Definition clock_reads (t : list Event) : list datetime :=
  omap (fun e => match e with EClock t => Some t | _ => None end) t.

Definition file_writes (t : list Event) : list (str * str * str) :=
  omap (fun e => match e with
                 | EWriteText dir name body => Some (dir, name, body)
                 | _ => None
                 end) t.

(** The body of file [name] of directory [dir], if both exist. *)
Definition read_file (fs : FileSystem) (dir name : str) : option str :=
  d ← fs !! dir; d !! name.

(** The names of the files of directory [dir]. *)
Definition listdir (fs : FileSystem) (dir : str) : gset str :=
  dom (default ∅ (fs !! dir)).

End Observations.

(** ** Reference implementations of the interfaces, for concrete runs *)

(** A context builder that records what it is given. *)
Record RecordedContext := {
  ctx_key : str;
  ctx_attributes : list (str * str)
}.

Definition recording_sdk : ContextSDK :=
  {| Context := RecordedContext;
     ContextBuilder := RecordedContext;
     AttrValue := str;
     Context_builder := fun key => {| ctx_key := key; ctx_attributes := [] |};
     builder_set := fun b k v =>
       {| ctx_key := ctx_key b; ctx_attributes := ctx_attributes b ++ [(k, v)] |};
     builder_build := fun b => b |}.

(** ASCII letters and digits only. *)
Definition ascii_lower (c : N) : N :=
  if (65 <=? c) && (c <=? 90) then c + 32 else c.
Definition ascii_isalnum (c : N) : bool :=
  is_digit c || ((65 <=? c) && (c <=? 90)) || ((97 <=? c) && (c <=? 122)).
Definition ascii_isspace (c : N) : bool :=
  N.eqb c 32 || ((9 <=? c) && (c <=? 13)).
Fixpoint ascii_lstrip (s : str) : str :=
  match s with
  | c :: rest => if ascii_isspace c then ascii_lstrip rest else s
  | [] => []
  end.
Definition ascii_strip (s : str) : str :=
  reverse (ascii_lstrip (reverse (ascii_lstrip s))).

Definition ascii_unicode : Unicode :=
  {| str_lower := map ascii_lower;
     chr_isalnum := ascii_isalnum;
     str_strip := ascii_strip |}.

Definition noon : datetime :=
  {| year := 2025; month := 3; day := 9; hour := 12; minute := 5 |}.

(** Every config enabled, the model always answers [reply]. *)
Definition all_enabled (reply : str) : @Services recording_sdk :=
  {| agent_config := fun _ key _ _ =>
       {| enabled := true; model_name := lit "claude-sonnet";
          instructions := lit "You are the " ++ key ++ lit " agent.";
          tracker := 7 |};
     llm_invoke := fun _ _ _ => Ok reply;
     clock := fun _ => noon |}.

(** Every config disabled; a model call, were one made, would fail. *)
Definition all_disabled : @Services recording_sdk :=
  {| agent_config := fun _ _ _ _ => AIAgentConfigDefault false;
     llm_invoke := fun _ _ _ => Raise (ModelError (lit "unreachable"));
     clock := fun _ => noon |}.

(** Configs enabled, the model client fails. *)
Definition model_down : @Services recording_sdk :=
  {| agent_config := fun _ key _ _ =>
       {| enabled := true; model_name := lit "claude-sonnet";
          instructions := key; tracker := 7 |};
     llm_invoke := fun _ _ _ => Raise (ModelError (lit "overloaded"));
     clock := fun _ => noon |}.

Definition empty_world : @World recording_sdk :=
  {| w_fs := ∅; w_stdin := []; w_trace := [] |}.

(** ** The three stages as one shape *)

Inductive Stage := ValidateIdea | WriteLandingPage | RecommendStack.

Definition stage_key (st : Stage) : str :=
  match st with
  | ValidateIdea => lit "idea-validator"
  | WriteLandingPage => lit "landing-page-writer"
  | RecommendStack => lit "tech-stack-advisor"
  end.

Definition stage_field (st : Stage) : OutputField :=
  match st with
  | ValidateIdea => IdeaValidation
  | WriteLandingPage => LandingPageCopy
  | RecommendStack => TechStack
  end.

Definition stage_prompt (st : Stage) : str :=
  match st with
  | ValidateIdea => lit "Please validate this idea and provide your analysis."
  | WriteLandingPage => lit "Please write the landing page copy."
  | RecommendStack => lit "Please recommend a tech stack."
  end.

Definition stage_variables (st : Stage) (s : SideProjectState)
  : list (str * str) :=
  match st with
  | ValidateIdea =>
      [(lit "idea", idea s); (lit "target_audience", target_audience s);
       (lit "problem_statement", problem_statement s)]
  | WriteLandingPage =>
      [(lit "idea", idea s); (lit "target_audience", target_audience s);
       (lit "unique_value_prop", unique_value_prop s)]
  | RecommendStack =>
      [(lit "expected_users", expected_users s); (lit "budget", budget s);
       (lit "team_expertise", team_expertise s)]
  end.

Definition stage_announcement (st : Stage) : str :=
  match st with
  | ValidateIdea => NEWLINE ++ lit "[idea-validator] Analyzing your idea..."
  | WriteLandingPage => lit "[landing-page-writer] Writing landing page copy..."
  | RecommendStack => lit "[tech-stack-advisor] Recommending tech stack..."
  end.

Definition not_enabled : str := lit "Config not enabled".

Section Stages.
Context `{sdk : ContextSDK} `{svc : !Services} `{uni : Unicode}.

Definition stage_node (st : Stage) : SideProjectState -> M SideProjectState :=
  match st with
  | ValidateIdea => idea_validator_node
  | WriteLandingPage => landing_page_writer_node
  | RecommendStack => tech_stack_advisor_node
  end.

(** The context a stage builds from the state. *)
Definition stage_context (s : SideProjectState) : Context :=
  builder_build (Context_builder (user_id s)).

(** The three stages one after the other. *)
Definition three_stages (s : SideProjectState) : M SideProjectState :=
  s1 ← idea_validator_node s;
  s2 ← landing_page_writer_node s1;
  tech_stack_advisor_node s2.

(** The four nodes one after the other. *)
Definition four_stages (s : SideProjectState) : M SideProjectState :=
  s1 ← idea_validator_node s;
  s2 ← landing_page_writer_node s1;
  s3 ← tech_stack_advisor_node s2;
  save_outputs_node s3.

End Stages.

(** ** Evaluation lemmas *)

Ltac run_M :=
  cbv beta iota zeta delta
    [mbind mret fmap M_bind M_ret M_fmap bind ret raise
     print input ai_client_agent_config ChatAnthropic_invoke track_success
     assign datetime_now mkdir_p write_text ld_client_flush
     build_context get_agent_config from_option id
     idea_validator_node landing_page_writer_node tech_stack_advisor_node
     stage_node w_trace w_fs w_stdin log fst snd].

Section Evaluation.
Context `{sdk : ContextSDK} `{svc : !Services} `{uni : Unicode}.
Implicit Types (s : SideProjectState) (w : World) (st : Stage).

(** The world after more events, files and input untouched. *)
Definition advance w (t : list Event) : World :=
  {| w_fs := w_fs w; w_stdin := w_stdin w; w_trace := w_trace w ++ t |}.

Lemma emitted_of_trace w w' (t : list Event) :
  w_trace w' = w_trace w ++ t -> emitted w w' = t.
Proof. unfold emitted. intros ->. by rewrite drop_app_length. Qed.

Lemma emitted_advance w (t : list Event) : emitted w (advance w t) = t.
Proof. by apply emitted_of_trace. Qed.

Lemma advance_advance w (a b : list Event) :
  advance (advance w a) b = advance w (a ++ b).
Proof. unfold advance; simpl. by rewrite app_assoc. Qed.

(** The config a stage receives and the reply of the model, when asked. *)
Definition stage_config st s w : AIConfig :=
  agent_config (w_trace w ++ [EStdout (stage_announcement st ++ NEWLINE)])
    (stage_key st) (stage_context s) (stage_variables st s).

Definition stage_messages st (cfg : AIConfig) : list Message :=
  [SystemMessage (instructions cfg); HumanMessage (stage_prompt st)].

Definition stage_reply st s w : Result str :=
  let cfg := stage_config st s w in
  llm_invoke (w_trace w ++ [EStdout (stage_announcement st ++ NEWLINE);
                            EConfig (stage_key st) (stage_context s)
                              (stage_variables st s) cfg])
    (model_name cfg) (stage_messages st cfg).

Definition stage_events st s w : list Event :=
  let cfg := stage_config st s w in
  [EStdout (stage_announcement st ++ NEWLINE);
   EConfig (stage_key st) (stage_context s) (stage_variables st s) cfg] ++
  if enabled cfg then
    ELlm (model_name cfg) (stage_messages st cfg) (stage_reply st s w) ::
    match stage_reply st s w with
    | Ok text => [EAssign (stage_field st) text; ETrackSuccess (tracker cfg)]
    | Raise _ => []
    end
  else [EAssign (stage_field st) not_enabled].

Definition stage_result st s w : Result SideProjectState :=
  let cfg := stage_config st s w in
  if enabled cfg then
    match stage_reply st s w with
    | Ok text => Ok (set_output (stage_field st) text s)
    | Raise e => Raise e
    end
  else Ok (set_output (stage_field st) not_enabled s).

Lemma stage_node_eval st s w :
  stage_node st s w = (advance w (stage_events st s w), stage_result st s w).
Proof.
  unfold advance, stage_events, stage_result, stage_reply, stage_config.
  destruct st; run_M;
    cbv beta iota delta [stage_key stage_field stage_prompt stage_variables
                         stage_announcement stage_context stage_messages
                         not_enabled fold_left].
  all: rewrite <- ?app_assoc; cbn [app].
  all: match goal with |- context [enabled ?c] => destruct (enabled c) end.
  all: try match goal with |- context [llm_invoke ?a ?b ?c] =>
         destruct (llm_invoke a b c) end.
  all: rewrite <- ?app_assoc; cbn [app]; reflexivity.
Qed.

(** What [save_outputs_node] leaves in the output directory, given
    what the directory held ([None]: it did not exist). *)
Definition summary_format : str := lit "%Y-%m-%d %H:%M".

Definition saved_directory s (generated : str) (held : option Directory)
  : Directory :=
  <[lit "00-summary.md" := summary_text s generated]>
  (<[lit "03-tech-stack.md" :=
       lit "# Tech Stack Recommendation" ++ NEWLINE ++ NEWLINE ++ tech_stack s]>
  (<[lit "02-landing-page.md" :=
       lit "# Landing Page Copy" ++ NEWLINE ++ NEWLINE ++ landing_page_copy s]>
  (<[lit "01-idea-validation.md" :=
       lit "# Idea Validation" ++ NEWLINE ++ NEWLINE ++ idea_validation s]>
  (default ∅ held)))).

Definition save_events_before_clock s : list Event :=
  [EStdout (lit "[saving] Writing output files..." ++ NEWLINE);
   EMkdir (output_dir s);
   EWriteText (output_dir s) (lit "01-idea-validation.md")
     (lit "# Idea Validation" ++ NEWLINE ++ NEWLINE ++ idea_validation s);
   EWriteText (output_dir s) (lit "02-landing-page.md")
     (lit "# Landing Page Copy" ++ NEWLINE ++ NEWLINE ++ landing_page_copy s);
   EWriteText (output_dir s) (lit "03-tech-stack.md")
     (lit "# Tech Stack Recommendation" ++ NEWLINE ++ NEWLINE ++ tech_stack s)].

(** The time [save_outputs_node] reads. *)
Definition save_time s w : datetime :=
  clock (w_trace w ++ save_events_before_clock s).

Definition save_events s w : list Event :=
  save_events_before_clock s ++
  [EClock (save_time s w);
   EWriteText (output_dir s) (lit "00-summary.md")
     (summary_text s (strftime summary_format (save_time s w)));
   EStdout ((NEWLINE ++ lit "[done] Output saved to: " ++ output_dir s ++ lit "/")
              ++ NEWLINE)].

Lemma save_outputs_node_eval s w :
  save_outputs_node s w =
  ({| w_fs := <[output_dir s :=
                  saved_directory s (strftime summary_format (save_time s w))
                    (w_fs w !! output_dir s)]> (w_fs w);
      w_stdin := w_stdin w;
      w_trace := w_trace w ++ save_events s w |},
   Ok s).
Proof.
  unfold save_outputs_node, save_events, save_time, saved_directory,
    save_events_before_clock, summary_format.
  run_M.
  destruct (w_fs w !! output_dir s) as [held|] eqn:Hdir; cbv beta iota.
  all: unfold w_fs in Hdir; rewrite ?Hdir; cbv beta iota.
  all: repeat (rewrite lookup_insert_eq; cbv beta iota).
  all: rewrite !insert_insert_eq.
  all: rewrite <- ?app_assoc; cbn [app]; reflexivity.
Qed.

End Evaluation.

(** ** The graph is the four nodes in sequence *)

Section Graph.
Context `{sdk : ContextSDK} `{svc : !Services} `{uni : Unicode}.
Implicit Types (s : SideProjectState) (w : World).

Lemma node_validate_idea :
  g_nodes build_side_project_graph !! lit "validate_idea"
  = Some idea_validator_node.
Proof. reflexivity. Qed.

Lemma node_write_landing_page :
  g_nodes build_side_project_graph !! lit "write_landing_page"
  = Some landing_page_writer_node.
Proof. reflexivity. Qed.

Lemma node_recommend_stack :
  g_nodes build_side_project_graph !! lit "recommend_stack"
  = Some tech_stack_advisor_node.
Proof. reflexivity. Qed.

Lemma node_save_outputs :
  g_nodes build_side_project_graph !! lit "save_outputs"
  = Some save_outputs_node.
Proof. reflexivity. Qed.

Lemma edges_of_graph :
  successor build_side_project_graph (lit "validate_idea")
    = Some (ToNode (lit "write_landing_page")) /\
  successor build_side_project_graph (lit "write_landing_page")
    = Some (ToNode (lit "recommend_stack")) /\
  successor build_side_project_graph (lit "recommend_stack")
    = Some (ToNode (lit "save_outputs")) /\
  successor build_side_project_graph (lit "save_outputs") = Some END.
Proof. repeat split; reflexivity. Qed.

Lemma run_from_step n name action next s :
  g_nodes build_side_project_graph !! name = Some action ->
  successor build_side_project_graph name = Some next ->
  run_from (S n) build_side_project_graph name s =
  (s' ← action s;
   match next with
   | ToNode next' => run_from n build_side_project_graph next' s'
   | END => mret s'
   end).
Proof. intros Hn He. cbn [run_from]. rewrite Hn, He. by destruct next. Qed.

Lemma invoke_graph_sequence s w :
  invoke build_side_project_graph s w = four_stages s w.
Proof.
  destruct edges_of_graph as (E1 & E2 & E3 & E4).
  unfold invoke, four_stages, recursion_limit.
  change (g_entry build_side_project_graph) with (Some (lit "validate_idea")).
  cbv beta iota.
  rewrite (run_from_step _ _ _ _ _ node_validate_idea E1).
  unfold mbind, M_bind, bind.
  destruct (idea_validator_node s w) as [w1 [s1|e]]; [|done].
  rewrite (run_from_step _ _ _ _ _ node_write_landing_page E2); unfold mbind, M_bind, bind.
  destruct (landing_page_writer_node s1 w1) as [w2 [s2|e]]; [|done].
  rewrite (run_from_step _ _ _ _ _ node_recommend_stack E3); unfold mbind, M_bind, bind.
  destruct (tech_stack_advisor_node s2 w2) as [w3 [s3|e]]; [|done].
  rewrite (run_from_step _ _ _ _ _ node_save_outputs E4); unfold mbind, M_bind, bind.
  by destruct (save_outputs_node s3 w3) as [w4 [s4|e]].
Qed.

End Graph.

(** ** Properties of one stage *)

Section StageProperties.
Context `{sdk : ContextSDK} `{svc : !Services} `{uni : Unicode}.
Implicit Types (s : SideProjectState) (w : World) (st : Stage).

Lemma stage_emitted st s w :
  emitted w (fst (stage_node st s w)) = stage_events st s w.
Proof. rewrite stage_node_eval. apply emitted_advance. Qed.

Lemma stage_fs st s w : w_fs (fst (stage_node st s w)) = w_fs w.
Proof. by rewrite stage_node_eval. Qed.

Lemma stage_result_field st s w s' :
  stage_result st s w = Ok s' ->
  s' = set_output (stage_field st) (get_output (stage_field st) s') s.
Proof.
  unfold stage_result.
  destruct (enabled _); [destruct (stage_reply st s w)|];
    intros [= <-]; by destruct st.
Qed.

Lemma stage_assignments st s w :
  assignments (stage_events st s w) =
  match stage_result st s w with
  | Ok s' => [(stage_field st, get_output (stage_field st) s')]
  | Raise _ => []
  end.
Proof.
  unfold stage_events, stage_result.
  destruct (enabled _); [destruct (stage_reply st s w)|]; by destruct st.
Qed.


(** C8.  A stage that returns changes nothing but its own output field:
    the nine input fields and the two other output fields of the state
    it returns are those of the state it was given; and
    [save_outputs_node] returns the state it was given, every field as
    it was. *)
Theorem stages_frame :
  (forall st s w s',
     snd (stage_node st s w) = Ok s' ->
     user_id s' = user_id s /\ idea s' = idea s /\
     target_audience s' = target_audience s /\
     problem_statement s' = problem_statement s /\
     unique_value_prop s' = unique_value_prop s /\
     expected_users s' = expected_users s /\ budget s' = budget s /\
     team_expertise s' = team_expertise s /\ output_dir s' = output_dir s /\
     (forall f, f <> stage_field st -> get_output f s' = get_output f s)) /\
  (forall s w, snd (save_outputs_node s w) = Ok s).
Proof.
  split.
  - intros st s w s'. rewrite stage_node_eval; cbn [snd]. intros Hr.
    rewrite (stage_result_field _ _ _ _ Hr).
    repeat split; try reflexivity.
    intros f Hf. by destruct f, st.
  - intros s w. by rewrite save_outputs_node_eval.
Qed.

End StageProperties.

(** ** The run of the pipeline, stage by stage *)

Section PipelineRuns.
Context `{sdk : ContextSDK} `{svc : !Services} `{uni : Unicode}.
Implicit Types (s : SideProjectState) (w : World) (st : Stage).

(** The world in which the stage after [st] starts. *)
Definition after st s w : World := advance w (stage_events st s w).

(** How a run of the four nodes can go: a model fault in one of the
    three stages ends it there, otherwise the writer runs. *)
Inductive pipeline_outcome s w : World -> Result SideProjectState -> Prop :=
| stopped_in_validation e :
    stage_result ValidateIdea s w = Raise e ->
    pipeline_outcome s w (after ValidateIdea s w) (Raise e)
| stopped_in_landing_page s1 e :
    stage_result ValidateIdea s w = Ok s1 ->
    let w1 := after ValidateIdea s w in
    stage_result WriteLandingPage s1 w1 = Raise e ->
    pipeline_outcome s w (after WriteLandingPage s1 w1) (Raise e)
| stopped_in_tech_stack s1 s2 e :
    stage_result ValidateIdea s w = Ok s1 ->
    let w1 := after ValidateIdea s w in
    stage_result WriteLandingPage s1 w1 = Ok s2 ->
    let w2 := after WriteLandingPage s1 w1 in
    stage_result RecommendStack s2 w2 = Raise e ->
    pipeline_outcome s w (after RecommendStack s2 w2) (Raise e)
| completed s1 s2 s3 :
    stage_result ValidateIdea s w = Ok s1 ->
    let w1 := after ValidateIdea s w in
    stage_result WriteLandingPage s1 w1 = Ok s2 ->
    let w2 := after WriteLandingPage s1 w1 in
    stage_result RecommendStack s2 w2 = Ok s3 ->
    let w3 := after RecommendStack s2 w2 in
    pipeline_outcome s w (fst (save_outputs_node s3 w3)) (Ok s3).

Lemma four_stages_outcome s w :
  pipeline_outcome s w (fst (four_stages s w)) (snd (four_stages s w)).
Proof.
  unfold four_stages, mbind, M_bind, bind.
  change idea_validator_node with (stage_node ValidateIdea).
  change landing_page_writer_node with (stage_node WriteLandingPage).
  change tech_stack_advisor_node with (stage_node RecommendStack).
  rewrite stage_node_eval.
  destruct (stage_result ValidateIdea s w) as [s1|e] eqn:H1;
    [|by apply stopped_in_validation].
  rewrite stage_node_eval.
  destruct (stage_result WriteLandingPage s1 _) as [s2|e] eqn:H2;
    [|by eapply stopped_in_landing_page].
  rewrite stage_node_eval.
  destruct (stage_result RecommendStack s2 _) as [s3|e] eqn:H3;
    [|by eapply stopped_in_tech_stack].
  match goal with |- context [snd (save_outputs_node s3 ?W)] =>
    replace (snd (save_outputs_node s3 W)) with (Ok s3)
      by (by rewrite save_outputs_node_eval)
  end.
  by eapply completed.
Qed.

Lemma three_stages_eval s w :
  three_stages s w =
  match stage_result ValidateIdea s w with
  | Raise e => (after ValidateIdea s w, Raise e)
  | Ok s1 =>
      let w1 := after ValidateIdea s w in
      match stage_result WriteLandingPage s1 w1 with
      | Raise e => (after WriteLandingPage s1 w1, Raise e)
      | Ok s2 =>
          let w2 := after WriteLandingPage s1 w1 in
          (after RecommendStack s2 w2, stage_result RecommendStack s2 w2)
      end
  end.
Proof.
  unfold three_stages, mbind, M_bind, bind.
  change idea_validator_node with (stage_node ValidateIdea).
  change landing_page_writer_node with (stage_node WriteLandingPage).
  change tech_stack_advisor_node with (stage_node RecommendStack).
  rewrite stage_node_eval.
  destruct (stage_result ValidateIdea s w) as [s1|e]; [|done].
  rewrite stage_node_eval.
  destruct (stage_result WriteLandingPage s1 _) as [s2|e]; [|done].
  by rewrite stage_node_eval.
Qed.

(** Traces of the worlds along the way. *)
Lemma trace_after st s w :
  w_trace (after st s w) = w_trace w ++ stage_events st s w.
Proof. reflexivity. Qed.

Lemma trace_saved s w :
  w_trace (fst (save_outputs_node s w)) = w_trace w ++ save_events s w.
Proof. by rewrite save_outputs_node_eval. Qed.

Lemma fs_after st s w : w_fs (after st s w) = w_fs w.
Proof. reflexivity. Qed.

End PipelineRuns.

(** ** Runs with every config disabled, and with every config enabled *)

Definition named_configurations : list str :=
  [lit "idea-validator"; lit "landing-page-writer"; lit "tech-stack-advisor"].

Lemma stage_key_named st : In (stage_key st) named_configurations.
Proof. destruct st; cbn; auto. Qed.

Ltac lit_neq :=
  let H := fresh in intros H; vm_compute in H; discriminate H.

Section SwitchedRuns.
Context `{sdk : ContextSDK} `{svc : !Services} `{uni : Unicode}.
Implicit Types (s : SideProjectState) (w : World) (st : Stage).

Lemma llm_calls_stage st s w :
  llm_calls (stage_events st s w) =
  if enabled (stage_config st s w)
  then [(model_name (stage_config st s w),
         stage_messages st (stage_config st s w), stage_reply st s w)]
  else [].
Proof.
  unfold stage_events.
  destruct (enabled _); [by destruct (stage_reply st s w)|done].
Qed.

Lemma llm_calls_save s w : llm_calls (save_events s w) = [].
Proof. reflexivity. Qed.

Lemma llm_calls_app (a b : list Event) :
  llm_calls (a ++ b) = llm_calls a ++ llm_calls b.
Proof. apply omap_app. Qed.

(** The service answers "not enabled" for the three named configs. *)
Definition configs_disabled : Prop :=
  forall history key ctx variables,
    In key named_configurations ->
    enabled (agent_config history key ctx variables) = false.

(** The service answers "enabled" for the three named configs. *)
Definition configs_enabled : Prop :=
  forall history key ctx variables,
    In key named_configurations ->
    enabled (agent_config history key ctx variables) = true.

Lemma stage_result_disabled st s w :
  configs_disabled ->
  stage_result st s w = Ok (set_output (stage_field st) not_enabled s) /\
  llm_calls (stage_events st s w) = [].
Proof.
  intros Hoff. rewrite llm_calls_stage. unfold stage_result.
  assert (enabled (stage_config st s w) = false) as ->; [|done].
  apply Hoff, stage_key_named.
Qed.

Lemma stage_result_enabled reply st s w :
  configs_enabled ->
  (forall history model messages,
     llm_invoke history model messages = Ok reply) ->
  stage_result st s w = Ok (set_output (stage_field st) reply s).
Proof.
  intros Hon Hllm. unfold stage_result.
  assert (enabled (stage_config st s w) = true) as ->
    by apply Hon, stage_key_named.
  unfold stage_reply. by rewrite Hllm.
Qed.

(** C6.  When the config service answers "not enabled" for each of the
    three named configurations, the three stages return a state whose
    fields idea_validation, landing_page_copy and tech_stack all hold
    "Config not enabled", and no call to the model service is made; the
    same holds of the whole graph run. *)
Theorem disabled_configs_run s w :
  configs_disabled ->
  (exists s',
      snd (three_stages s w) = Ok s' /\
      idea_validation s' = lit "Config not enabled" /\
      landing_page_copy s' = lit "Config not enabled" /\
      tech_stack s' = lit "Config not enabled" /\
      llm_calls (emitted w (fst (three_stages s w))) = []) /\
  (exists s',
      snd (invoke build_side_project_graph s w) = Ok s' /\
      idea_validation s' = lit "Config not enabled" /\
      landing_page_copy s' = lit "Config not enabled" /\
      tech_stack s' = lit "Config not enabled" /\
      llm_calls (emitted w (fst (invoke build_side_project_graph s w))) = []).
Proof.
  intros Hoff.
  pose proof (fun st s w => proj1 (stage_result_disabled st s w Hoff)) as Hres.
  pose proof (fun st s w => proj2 (stage_result_disabled st s w Hoff)) as Hllm.
  split.
  - rewrite three_stages_eval, Hres; cbv zeta. rewrite Hres, Hres.
    eexists; split; [reflexivity|]. repeat split.
    cbn [fst]. erewrite emitted_of_trace.
    2: { rewrite !trace_after, <- !app_assoc. reflexivity. }
    by rewrite !llm_calls_app, !Hllm.
  - rewrite invoke_graph_sequence.
    destruct (four_stages_outcome s w) as [e H1|s1 e H1 w1 H2|s1 s2 e H1 w1 H2 w2 H3|s1 s2 s3 H1 w1 H2 w2 H3 w3];
      try subst w1; try subst w2; try subst w3;
      rewrite Hres in *; try discriminate.
    injection H1 as <-. injection H2 as <-. injection H3 as <-.
    eexists; split; [reflexivity|]. repeat split.
    erewrite emitted_of_trace.
    2: { rewrite trace_saved, !trace_after, <- !app_assoc. reflexivity. }
    by rewrite !llm_calls_app, !Hllm.
Qed.

(** C9.  With the three configs enabled and a model that returns the
    fixed text [reply] (empty or not) to every call, the graph run from
    any state, the sample inputs among them, returns, and the file
    01-idea-validation.md of the output directory then holds the heading
    line "# Idea Validation", the blank line that ends the heading block,
    and [reply], with nothing else before, between or after. *)
Theorem enabled_run_idea_validation_file reply s w :
  configs_enabled ->
  (forall history model messages,
     llm_invoke history model messages = Ok reply) ->
  exists w' s',
    invoke build_side_project_graph s w = (w', Ok s') /\
    read_file (w_fs w') (output_dir s) (lit "01-idea-validation.md")
      = Some (lit "# Idea Validation" ++ NEWLINE ++ NEWLINE ++ reply).
Proof.
  intros Hon Hllm.
  pose proof (fun st s w => stage_result_enabled reply st s w Hon Hllm) as Hres.
  rewrite invoke_graph_sequence.
  destruct (four_stages s w) as [w' r] eqn:Hrun.
  pose proof (four_stages_outcome s w) as Hout. rewrite Hrun in Hout.
  cbn [fst snd] in Hout.
  destruct Hout as [e H1|s1 e H1 w1 H2|s1 s2 e H1 w1 H2 w2 H3|s1 s2 s3 H1 w1 H2 w2 H3 w3];
    try subst w1; try subst w2; try subst w3;
    rewrite Hres in *; try discriminate.
  injection H1 as <-. injection H2 as <-. injection H3 as <-.
  eexists _, _. split; [reflexivity|].
  rewrite save_outputs_node_eval. cbn [fst w_fs].
  unfold read_file. cbn [output_dir set_output].
  rewrite lookup_insert_eq. cbn [mbind option_bind].
  unfold saved_directory.
  rewrite !lookup_insert_ne by lit_neq.
  by rewrite lookup_insert_eq.
Qed.

End SwitchedRuns.

(** ** The state built from the user's answers *)

Section UserInput.
Context `{sdk : ContextSDK} `{svc : !Services} `{uni : Unicode}.
Implicit Types (s : SideProjectState) (w : World) (st : Stage).

(** The state [get_user_input] builds from the seven stripped answers
    and the time it reads. *)
Definition initial_state_of (answers : list str) (t : datetime)
  : option SideProjectState :=
  match str_strip <$> answers with
  | [a1; a2; a3; a4; a5; a6; a7] =>
      let timestamp := strftime (lit "%Y%m%d-%H%M") t in
      Some {| user_id := lit "user-" ++ timestamp;
              idea := a1; target_audience := a2; problem_statement := a3;
              unique_value_prop := a4; expected_users := a5; budget := a6;
              team_expertise := a7;
              idea_validation := []; landing_page_copy := [];
              tech_stack := [];
              output_dir :=
                lit "output/" ++ folder_name_of a1 ++ lit "-" ++ timestamp |}
  | _ => None
  end.

Lemma get_user_input_returns w w0 s0 :
  get_user_input w = (w0, Ok s0) ->
  exists answers rest t,
    w_stdin w = answers ++ rest /\
    initial_state_of answers t = Some s0 /\
    clock_reads (emitted w w0) = [t] /\
    assignments (emitted w w0) = [] /\
    w_fs w0 = w_fs w /\ w_stdin w0 = rest.
Proof.
  destruct w as [fs stdin trace].
  unfold get_user_input. run_M.
  destruct stdin as [|l1 [|l2 [|l3 [|l4 [|l5 [|l6 [|l7 rest]]]]]]];
    try (intros [=]; fail).
  intros [= <- <-].
  match goal with |- context [clock ?h] => set (tnow := clock h) end.
  exists [l1; l2; l3; l4; l5; l6; l7], rest, tnow.
  split; [reflexivity|]. split; [reflexivity|].
  split; [|split; [|split; reflexivity]].
  - erewrite emitted_of_trace;
      [|cbn [w_trace]; rewrite <- ?app_assoc; cbn [app]; reflexivity].
    reflexivity.
  - erewrite emitted_of_trace;
      [|cbn [w_trace]; rewrite <- ?app_assoc; cbn [app]; reflexivity].
    reflexivity.
Qed.

Lemma initial_state_outputs_empty answers t s0 :
  initial_state_of answers t = Some s0 ->
  idea_validation s0 = [] /\ landing_page_copy s0 = [] /\ tech_stack s0 = [].
Proof.
  unfold initial_state_of.
  destruct (str_strip <$> answers) as [|a1 [|a2 [|a3 [|a4 [|a5 [|a6 [|a7 [|]]]]]]]];
    try discriminate.
  by intros [= <-].
Qed.

End UserInput.

(** ** Assignments to the output fields *)

Section Assignments.
Context `{sdk : ContextSDK} `{svc : !Services} `{uni : Unicode}.
Implicit Types (s : SideProjectState) (w : World) (st : Stage).

Lemma assignments_app (a b : list Event) :
  assignments (a ++ b) = assignments a ++ assignments b.
Proof. apply omap_app. Qed.

Lemma assignments_save s w : assignments (save_events s w) = [].
Proof. reflexivity. Qed.

Lemma stage_field_inj st st' : stage_field st = stage_field st' -> st = st'.
Proof. by destruct st, st'. Qed.

Lemma pipeline_assignments s w w' r :
  pipeline_outcome s w w' r ->
  (fst <$> assignments (emitted w w'))
    `prefix_of` [IdeaValidation; LandingPageCopy; TechStack] /\
  (forall s', r = Ok s' ->
     assignments (emitted w w')
     = [(IdeaValidation, idea_validation s');
        (LandingPageCopy, landing_page_copy s');
        (TechStack, tech_stack s')]).
Proof.
  intros [e H1|s1 e H1 w1 H2|s1 s2 e H1 w1 H2 w2 H3|s1 s2 s3 H1 w1 H2 w2 H3 w3];
    try subst w1; try subst w2; try subst w3.
  all: erewrite emitted_of_trace;
    [|rewrite ?trace_saved, !trace_after, <- ?app_assoc; reflexivity].
  all: rewrite ?assignments_app, ?assignments_save, !stage_assignments.
  all: rewrite ?H1, ?H2, ?H3; cbn [app fmap list_fmap fst stage_field].
  - split; [apply prefix_nil|discriminate].
  - split; [by eexists|discriminate].
  - split; [by eexists|discriminate].
  - split; [by exists []|]. intros s' [= <-].
    rewrite (stage_result_field _ _ _ _ H3), (stage_result_field _ _ _ _ H2),
      (stage_result_field _ _ _ _ H1).
    reflexivity.
Qed.

(** C3.  In the pipeline started from the state built by
    [get_user_input]: the three output fields start as the empty string
    (and building the state assigns none of them); over the whole graph
    run the fields assigned are, in this order, a prefix of
    idea_validation, landing_page_copy, tech_stack, so each is assigned
    at most once and in pipeline order, and all three exactly once, with
    the values of the final state, when the run returns; a stage assigns
    no field but its own, the writer assigns none, and each field is the
    field of exactly one stage. *)
Theorem output_fields_assigned_once w w0 s0 :
  get_user_input w = (w0, Ok s0) ->
  (idea_validation s0 = [] /\ landing_page_copy s0 = [] /\ tech_stack s0 = []
   /\ assignments (emitted w w0) = []) /\
  (fst <$> assignments
             (emitted w0 (fst (invoke build_side_project_graph s0 w0))))
    `prefix_of` [IdeaValidation; LandingPageCopy; TechStack] /\
  (forall s',
     snd (invoke build_side_project_graph s0 w0) = Ok s' ->
     assignments (emitted w0 (fst (invoke build_side_project_graph s0 w0)))
     = [(IdeaValidation, idea_validation s');
        (LandingPageCopy, landing_page_copy s');
        (TechStack, tech_stack s')]) /\
  (forall st s w1,
     (fst <$> assignments (emitted w1 (fst (stage_node st s w1))))
       `prefix_of` [stage_field st]) /\
  (forall s w1, assignments (emitted w1 (fst (save_outputs_node s w1))) = []) /\
  (forall f, exists st,
     stage_field st = f /\ forall st', stage_field st' = f -> st' = st).
Proof.
  intros Hin.
  destruct (get_user_input_returns _ _ _ Hin)
    as (answers & rest & t & _ & Hs0 & _ & Hno & _).
  destruct (initial_state_outputs_empty _ _ _ Hs0) as (E1 & E2 & E3).
  split; [done|].
  rewrite invoke_graph_sequence.
  destruct (pipeline_assignments _ _ _ _ (four_stages_outcome s0 w0))
    as [Hpre Hall].
  split; [done|]. split; [done|]. split; [|split].
  - intros st s w1. rewrite stage_emitted, stage_assignments.
    destruct (stage_result st s w1); [by exists []|apply prefix_nil].
  - intros s w1. erewrite emitted_of_trace; [|apply trace_saved].
    apply assignments_save.
  - intros f.
    exists (match f with
            | IdeaValidation => ValidateIdea
            | LandingPageCopy => WriteLandingPage
            | TechStack => RecommendStack
            end).
    split; [by destruct f|]. intros st' <-. by destruct st'.
Qed.

End Assignments.

(** ** The output folder *)

(** [YYYYMMDD-HHMM]: eight digits, a hyphen, four digits. *)
Definition timestamp_shape (ts : str) : Prop :=
  exists date time : str,
    ts = date ++ [HYPHEN] ++ time /\
    length date = 8%nat /\ length time = 4%nat /\
    Forall (fun c => is_digit c = true) date /\
    Forall (fun c => is_digit c = true) time.

(** A space or a slash becomes a hyphen. *)
Definition hyphenate (c : N) : N :=
  if N.eqb c SPACE || N.eqb c SLASH then HYPHEN else c.

Section Folder.
Context `{uni : Unicode}.

Lemma digit_is_digit d : is_digit (digit d) = true.
Proof.
  unfold is_digit, digit.
  assert (d mod 10 < 10) as Hd by (apply N.mod_upper_bound; lia).
  revert Hd. generalize (d mod 10). intros r Hr.
  apply andb_true_intro; split; apply N.leb_le; lia.
Qed.

Lemma strftime_folder_format t :
  strftime (lit "%Y%m%d-%H%M") t =
  (pad4 (year t) ++ pad2 (month t) ++ pad2 (day t))
    ++ [HYPHEN] ++ (pad2 (hour t) ++ pad2 (minute t)).
Proof. reflexivity. Qed.

Lemma strftime_folder_shape t :
  timestamp_shape (strftime (lit "%Y%m%d-%H%M") t).
Proof.
  rewrite strftime_folder_format. eexists _, _. split; [reflexivity|].
  split; [reflexivity|]. split; [reflexivity|].
  split; repeat constructor; apply digit_is_digit.
Qed.

Lemma folder_name_hyphenate idea :
  folder_name_of idea =
  filter (fun c => chr_isalnum c = true \/ c = HYPHEN)
    (hyphenate <$> take 30 (str_lower idea)).
Proof.
  unfold folder_name_of, str_replace, str_prefix.
  rewrite map_map.
  generalize (take 30 (str_lower idea)) as l.
  induction l as [|c l IH]; [reflexivity|].
  cbn [map fmap list_fmap]. rewrite !filter_cons.
  assert (Hc : (if N.eqb (if N.eqb c SPACE then HYPHEN else c) SLASH
                then HYPHEN else if N.eqb c SPACE then HYPHEN else c)
               = hyphenate c).
  { unfold hyphenate. destruct (N.eqb c SPACE) eqn:E1; [reflexivity|].
    by destruct (N.eqb c SLASH). }
  rewrite Hc, IH.
  repeat case_decide; try reflexivity; exfalso.
  - match goal with H : _ = true |- _ =>
      apply orb_true_iff in H as [H|H%N.eqb_eq]; tauto end.
  - match goal with H : ~ (_ = true) |- _ =>
      apply H, orb_true_iff; rewrite N.eqb_eq; tauto end.
Qed.

Lemma folder_name_length idea : (length (folder_name_of idea) <= 30)%nat.
Proof.
  rewrite folder_name_hyphenate.
  etransitivity; [apply length_filter|].
  rewrite length_fmap, length_take. lia.
Qed.

Lemma folder_name_chars idea :
  Forall (fun c => c = HYPHEN \/ chr_isalnum c = true) (folder_name_of idea).
Proof.
  rewrite folder_name_hyphenate. apply Forall_forall.
  intros c Hc. apply list_elem_of_filter in Hc. tauto.
Qed.

Lemma folder_name_empty idea :
  Forall (fun c => chr_isalnum c = false /\ c <> SPACE /\ c <> SLASH
                   /\ c <> HYPHEN)
    (take 30 (str_lower idea)) ->
  folder_name_of idea = [].
Proof.
  rewrite folder_name_hyphenate.
  induction 1 as [|c l (Ha & Hs & Hl & Hh) _ IH]; [reflexivity|].
  cbn [fmap list_fmap]. rewrite filter_cons, IH.
  case_decide as Hk; [|reflexivity]. exfalso.
  unfold hyphenate in Hk.
  apply N.eqb_neq in Hs, Hl. rewrite Hs, Hl in Hk. cbn in Hk.
  destruct Hk as [Hk|Hk]; congruence.
Qed.

End Folder.

Section OutputDir.
Context `{sdk : ContextSDK} `{svc : !Services} `{uni : Unicode}.
Implicit Types (s : SideProjectState) (w : World).

Lemma initial_state_folder answers t s0 :
  initial_state_of answers t = Some s0 ->
  output_dir s0 = lit "output/" ++ folder_name_of (idea s0) ++ lit "-"
                    ++ strftime (lit "%Y%m%d-%H%M") t /\
  exists answer more, answers = answer :: more /\ idea s0 = str_strip answer.
Proof.
  unfold initial_state_of.
  destruct answers as [|answer more]; [discriminate|].
  cbn [fmap list_fmap].
  destruct (str_strip <$> more) as [|a2 [|a3 [|a4 [|a5 [|a6 [|a7 [|]]]]]]];
    try discriminate.
  intros [= <-]. split; [reflexivity|]. by exists answer, more.
Qed.

(** C10, as amended.  Whatever the user enters as the idea,
    [get_user_input] sets output_dir to "output/" + slug + "-" +
    timestamp, where the timestamp is the time read, printed as
    YYYYMMDD-HHMM, and the slug is made from the stripped idea: it has at
    most 30 characters, each a hyphen or alphanumeric; it is the first 30
    characters of the lowercased idea with every space and "/" turned
    into a hyphen and every other character that is neither alphanumeric
    nor a hyphen removed.  The slug is empty when the idea is empty
    (lowercasing the empty string gives the empty string), and when none
    of those 30 characters is alphanumeric, a space, a "/" or a hyphen. *)
Theorem output_dir_shape w w0 s0 :
  get_user_input w = (w0, Ok s0) ->
  exists (slug : str) (t : datetime) (answer : str),
    head (w_stdin w) = Some answer /\ idea s0 = str_strip answer /\
    clock_reads (emitted w w0) = [t] /\
    output_dir s0
      = lit "output/" ++ slug ++ lit "-" ++ strftime (lit "%Y%m%d-%H%M") t /\
    timestamp_shape (strftime (lit "%Y%m%d-%H%M") t) /\
    (length slug <= 30)%nat /\
    Forall (fun c => c = HYPHEN \/ chr_isalnum c = true) slug /\
    slug = filter (fun c => chr_isalnum c = true \/ c = HYPHEN)
             (hyphenate <$> take 30 (str_lower (idea s0))) /\
    (str_lower [] = [] -> idea s0 = [] -> slug = []) /\
    (Forall (fun c => chr_isalnum c = false /\ c <> SPACE /\ c <> SLASH
                      /\ c <> HYPHEN)
       (take 30 (str_lower (idea s0))) ->
     slug = []).
Proof.
  intros Hin.
  destruct (get_user_input_returns _ _ _ Hin)
    as (answers & rest & t & Hstdin & Hs0 & Hclock & _).
  destruct (initial_state_folder _ _ _ Hs0)
    as (Hdir & answer & more & -> & Hidea).
  exists (folder_name_of (idea s0)), t, answer.
  split; [by rewrite Hstdin|]. split; [done|]. split; [done|].
  split; [done|]. split; [apply strftime_folder_shape|].
  split; [apply folder_name_length|]. split; [apply folder_name_chars|].
  split; [apply folder_name_hyphenate|]. split; [|apply folder_name_empty].
  intros Hlow ->. rewrite folder_name_hyphenate, Hlow. reflexivity.
Qed.

End OutputDir.

(** ** The output writer *)

Definition output_file_names : gset str :=
  {[ lit "00-summary.md"; lit "01-idea-validation.md";
     lit "02-landing-page.md"; lit "03-tech-stack.md" ]}.

Section Writer.
Context `{sdk : ContextSDK}.
Implicit Types (s : SideProjectState) (w : World).

Lemma saved_directory_names s generated held :
  dom (saved_directory s generated held)
  = output_file_names ∪ dom (default ∅ held).
Proof.
  unfold saved_directory, output_file_names.
  rewrite !dom_insert_L. set_solver.
Qed.

Lemma listdir_saved `{svc : !Services} s w :
  listdir (w_fs (fst (save_outputs_node s w))) (output_dir s)
  = output_file_names ∪ listdir (w_fs w) (output_dir s).
Proof.
  rewrite save_outputs_node_eval. unfold listdir. cbn [fst w_fs].
  rewrite lookup_insert_eq. cbn [default from_option id].
  apply saved_directory_names.
Qed.

(** C4, as amended.  A run of [save_outputs_node] always returns, and
    afterwards the output directory holds the four files 00-summary.md,
    01-idea-validation.md, 02-landing-page.md and 03-tech-stack.md and,
    besides them, exactly the files it held before the run: so exactly
    these four and no others when the directory did not exist or held
    none but these. *)
Theorem output_directory_files `{svc : !Services} s w :
  snd (save_outputs_node s w) = Ok s /\
  listdir (w_fs (fst (save_outputs_node s w))) (output_dir s)
    = output_file_names ∪ listdir (w_fs w) (output_dir s) /\
  (listdir (w_fs w) (output_dir s) ⊆ output_file_names ->
   listdir (w_fs (fst (save_outputs_node s w))) (output_dir s)
     = output_file_names).
Proof.
  split; [by rewrite save_outputs_node_eval|].
  split; [apply listdir_saved|].
  intros Hsub. rewrite listdir_saved. set_solver.
Qed.

Lemma summary_text_inputs s1 s2 generated :
  idea s1 = idea s2 -> target_audience s1 = target_audience s2 ->
  problem_statement s1 = problem_statement s2 ->
  unique_value_prop s1 = unique_value_prop s2 ->
  expected_users s1 = expected_users s2 -> budget s1 = budget s2 ->
  team_expertise s1 = team_expertise s2 ->
  summary_text s1 generated = summary_text s2 generated.
Proof. unfold summary_text. by intros -> -> -> -> -> -> ->. Qed.

Lemma summary_written `{svc : !Services} s w :
  clock_reads (emitted w (fst (save_outputs_node s w))) = [save_time s w] /\
  read_file (w_fs (fst (save_outputs_node s w))) (output_dir s)
    (lit "00-summary.md")
  = Some (summary_text s (strftime (lit "%Y-%m-%d %H:%M") (save_time s w))).
Proof.
  split.
  - erewrite emitted_of_trace; [|apply trace_saved]. reflexivity.
  - rewrite save_outputs_node_eval. unfold read_file. cbn [fst w_fs].
    rewrite lookup_insert_eq. cbn [mbind option_bind].
    unfold saved_directory. by rewrite lookup_insert_eq.
Qed.

(** C5.  Take two runs of [save_outputs_node], in any two worlds and
    with any two service implementations, on states that agree on idea,
    target_audience, problem_statement, unique_value_prop,
    expected_users, budget and team_expertise, and in which the clock is
    read at the same time [t].  Then both write a 00-summary.md, and the
    two bodies are equal: the body is [summary_text] of those seven
    fields and of [t] printed as "%Y-%m-%d %H:%M". *)
Theorem summary_deterministic (svc1 svc2 : Services)
    s1 s2 (w1 w2 : World) (t : datetime) :
  idea s1 = idea s2 -> target_audience s1 = target_audience s2 ->
  problem_statement s1 = problem_statement s2 ->
  unique_value_prop s1 = unique_value_prop s2 ->
  expected_users s1 = expected_users s2 -> budget s1 = budget s2 ->
  team_expertise s1 = team_expertise s2 ->
  clock_reads (emitted w1 (fst (save_outputs_node (svc:=svc1) s1 w1))) = [t] ->
  clock_reads (emitted w2 (fst (save_outputs_node (svc:=svc2) s2 w2))) = [t] ->
  exists body : str,
    read_file (w_fs (fst (save_outputs_node (svc:=svc1) s1 w1)))
      (output_dir s1) (lit "00-summary.md") = Some body /\
    read_file (w_fs (fst (save_outputs_node (svc:=svc2) s2 w2)))
      (output_dir s2) (lit "00-summary.md") = Some body /\
    body = summary_text s1 (strftime (lit "%Y-%m-%d %H:%M") t).
Proof.
  intros E1 E2 E3 E4 E5 E6 E7 Ht1 Ht2.
  destruct (summary_written (svc:=svc1) s1 w1) as [C1 B1].
  destruct (summary_written (svc:=svc2) s2 w2) as [C2 B2].
  rewrite C1 in Ht1. rewrite C2 in Ht2.
  injection Ht1 as Ht1. injection Ht2 as Ht2.
  rewrite Ht1 in B1. rewrite Ht2 in B2.
  eexists. split; [exact B1|]. split; [|reflexivity].
  rewrite B2. f_equal. symmetry. by apply summary_text_inputs.
Qed.

End Writer.

(** ** Direct calls against the graph *)

Ltac run_launcher :=
  cbv beta iota zeta delta
    [mbind mret fmap M_bind M_ret M_fmap bind ret raise
     print ai_client_agent_config ld_client_flush from_option id
     Launcher.main_on Launcher.validate_idea Launcher.write_landing_page
     Launcher.recommend_tech_stack Launcher.get_agent_config
     Launcher.build_context Launcher.show_instructions
     fold_left advance w_trace w_fs w_stdin log fst snd].

Section DirectAndGraph.
Context `{sdk : ContextSDK} `{svc : !Services} `{uni : Unicode}.
Implicit Types (s : SideProjectState) (w : World) (st : Stage).

(** What is asked of the config service for a state, stage by stage. *)
Definition pipeline_requests s : list (str * Context * list (str * str)) :=
  (fun st => (stage_key st, stage_context s, stage_variables st s))
    <$> [ValidateIdea; WriteLandingPage; RecommendStack].

(** What an observer of a run sees of it: the fields assigned, the calls
    to the model service, and the files. *)
Definition observable_behaviour (before after : World) :=
  (assignments (emitted before after),
   llm_calls (emitted before after),
   w_fs after).

Lemma main_on_run s w :
  exists t : list Event,
    Launcher.main_on s w = (advance w t, Ok tt) /\
    config_requests t = pipeline_requests s /\
    llm_calls t = [] /\ assignments t = [] /\ file_writes t = [].
Proof.
  destruct w as [fs stdin trace].
  run_launcher.
  repeat match goal with
         | |- context [enabled ?c] => destruct (enabled c)
         end.
  all: eexists; split;
    [rewrite <- ?app_assoc; cbn [app]; reflexivity|repeat split].
Qed.

Lemma config_requests_app (a b : list Event) :
  config_requests (a ++ b) = config_requests a ++ config_requests b.
Proof. unfold config_requests, config_fetches. by rewrite omap_app, fmap_app. Qed.

Lemma config_requests_stage st s w :
  config_requests (stage_events st s w)
  = [(stage_key st, stage_context s, stage_variables st s)].
Proof.
  unfold stage_events.
  destruct (enabled _); [by destruct (stage_reply st s w)|done].
Qed.

Lemma config_requests_save s w : config_requests (save_events s w) = [].
Proof. reflexivity. Qed.

(** A stage leaves what the later requests read as it was. *)
Lemma requests_after_stage st st' s w s' :
  stage_result st s w = Ok s' ->
  stage_context s' = stage_context s /\
  stage_variables st' s' = stage_variables st' s.
Proof.
  intros H. rewrite (stage_result_field _ _ _ _ H). by destruct st, st'.
Qed.

Lemma pipeline_config_requests s w w' r :
  pipeline_outcome s w w' r ->
  config_requests (emitted w w') `prefix_of` pipeline_requests s /\
  (forall s', r = Ok s' ->
     config_requests (emitted w w') = pipeline_requests s /\
     length (assignments (emitted w w')) = 3%nat /\
     length (file_writes (emitted w w')) = 4%nat).
Proof.
  intros [e H1|s1 e H1 w1 H2|s1 s2 e H1 w1 H2 w2 H3|s1 s2 s3 H1 w1 H2 w2 H3 w3];
    try subst w1; try subst w2; try subst w3.
  all: erewrite emitted_of_trace;
    [|rewrite ?trace_saved, !trace_after, <- ?app_assoc; reflexivity].
  all: rewrite ?config_requests_app, ?config_requests_save,
         !config_requests_stage.
  all: try rewrite (proj1 (requests_after_stage _ RecommendStack _ _ _ H2)),
         (proj2 (requests_after_stage _ RecommendStack _ _ _ H2)).
  all: try rewrite (proj2 (requests_after_stage _ RecommendStack _ _ _ H1)).
  all: try rewrite (proj2 (requests_after_stage _ WriteLandingPage _ _ _ H1)).
  all: try rewrite !(proj1 (requests_after_stage _ RecommendStack _ _ _ H1)).
  all: unfold pipeline_requests; cbn [app fmap list_fmap].
  - split; [by eexists|discriminate].
  - split; [by eexists|discriminate].
  - split; [by exists []|discriminate].
  - split; [by exists []|]. intros s' _. split; [reflexivity|].
    rewrite !assignments_app, assignments_save, !stage_assignments.
    rewrite H1, H2, H3. split; [reflexivity|].
    unfold file_writes. rewrite !omap_app.
    assert (Hst : forall st s w,
               omap (fun e : Event =>
                       match e with
                       | EWriteText dir name body => Some (dir, name, body)
                       | _ => None
                       end) (stage_events st s w) = []).
    { intros st s4 w4. unfold stage_events.
      destruct (enabled _); [by destruct (stage_reply st s4 w4)|done]. }
    by rewrite !Hst.
Qed.

(** C1, as amended.  For every initial state, the direct-call sequence
    ([validate_idea], [write_landing_page], [recommend_tech_stack] as the
    main block of side_project_launcher.py runs them) returns, asks the
    config service for the same three configs as the stages do, with the
    same context and variables and in the same order, and does nothing
    else that can be observed: it calls the model service not once,
    assigns no state field and writes no file.  The graph run is the four
    node functions applied one after the other; the configs it asks for
    are a prefix of those three, and when it returns they are exactly the
    ones of the direct calls, three fields have been assigned and four
    files written. *)
Theorem direct_calls_and_graph s w :
  (snd (Launcher.main_on s w) = Ok tt /\
   config_requests (emitted w (fst (Launcher.main_on s w)))
     = pipeline_requests s /\
   llm_calls (emitted w (fst (Launcher.main_on s w))) = [] /\
   assignments (emitted w (fst (Launcher.main_on s w))) = [] /\
   file_writes (emitted w (fst (Launcher.main_on s w))) = [] /\
   w_fs (fst (Launcher.main_on s w)) = w_fs w) /\
  invoke build_side_project_graph s w = four_stages s w /\
  config_requests (emitted w (fst (invoke build_side_project_graph s w)))
    `prefix_of` pipeline_requests s /\
  (forall s',
     snd (invoke build_side_project_graph s w) = Ok s' ->
     config_requests (emitted w (fst (invoke build_side_project_graph s w)))
       = config_requests (emitted w (fst (Launcher.main_on s w))) /\
     length (assignments
               (emitted w (fst (invoke build_side_project_graph s w))))
       = 3%nat /\
     length (file_writes
               (emitted w (fst (invoke build_side_project_graph s w))))
       = 4%nat).
Proof.
  destruct (main_on_run s w) as (t & -> & Hreq & Hllm & Hasg & Hfw).
  cbn [fst snd]. rewrite emitted_advance.
  split; [done|].
  split; [apply invoke_graph_sequence|].
  rewrite invoke_graph_sequence.
  destruct (pipeline_config_requests _ _ _ _ (four_stages_outcome s w))
    as [Hpre Hall].
  split; [done|]. intros s' Hs'. rewrite Hreq. exact (Hall s' Hs').
Qed.

End DirectAndGraph.


(** ** Concrete runs *)

(** The sample inputs, to be written under a folder of their own. *)
Definition sample_state : SideProjectState :=
  {| user_id := user_id Launcher.sample_inputs;
     idea := idea Launcher.sample_inputs;
     target_audience := target_audience Launcher.sample_inputs;
     problem_statement := problem_statement Launcher.sample_inputs;
     unique_value_prop := unique_value_prop Launcher.sample_inputs;
     expected_users := expected_users Launcher.sample_inputs;
     budget := budget Launcher.sample_inputs;
     team_expertise := team_expertise Launcher.sample_inputs;
     idea_validation := [];
     landing_page_copy := [];
     tech_stack := [];
     output_dir := lit "output/ai-powered-recipe-app-that-sug-20250309-1205" |}.

(** A world in which the output folder exists and holds a file. *)
Definition cluttered_world : @World recording_sdk :=
  {| w_fs := {[ output_dir sample_state
                  := {[ lit "notes.txt" := lit "keep me" ]} ]};
     w_stdin := [];
     w_trace := [] |}.

(** A world in which the user is about to type the sample answers. *)
Definition answering_world : @World recording_sdk :=
  {| w_fs := ∅;
     w_stdin := [
       lit "  AI-powered recipe app that suggests meals from fridge photos ";
       lit "busy parents who hate meal planning";
       lit "no time to plan meals, food goes to waste";
       lit "See what's in your fridge, get tonight's dinner in seconds";
       lit "10,000 monthly active users";
       lit "$500/month";
       lit "Python, React, some AWS experience" ];
     w_trace := [] |}.

(** A world in which the user answers "/" to the first question. *)
Definition slash_world : @World recording_sdk :=
  {| w_fs := ∅;
     w_stdin := [lit "/"; lit "a"; lit "b"; lit "c"; lit "d"; lit "e"; lit "f"];
     w_trace := [] |}.


Lemma stages_frame_witness :
  idea (set_output IdeaValidation (lit "ok") sample_state) = idea sample_state /\
  output_dir (set_output IdeaValidation (lit "ok") sample_state)
    = output_dir sample_state.
Proof.
  destruct (proj1 (stages_frame (svc := all_enabled (lit "ok")))
              ValidateIdea sample_state empty_world
              (set_output IdeaValidation (lit "ok") sample_state)
              ltac:(vm_compute; reflexivity))
    as (_ & Hidea & _ & _ & _ & _ & _ & _ & Hdir & _).
  by split.
Defined.

Lemma disabled_configs_run_witness :
  exists s',
    snd (invoke (build_side_project_graph (svc := all_disabled))
           sample_state empty_world) = Ok s' /\
    tech_stack s' = lit "Config not enabled".
Proof.
  assert (Hoff : @configs_disabled recording_sdk all_disabled)
    by (intros ? ? ? ? _; reflexivity).
  destruct (disabled_configs_run (svc := all_disabled)
              sample_state empty_world Hoff)
    as [_ (s' & Hs & _ & _ & Ht & _)].
  by exists s'.
Defined.

Lemma enabled_run_idea_validation_file_witness :
  exists w' s',
    invoke (build_side_project_graph
              (svc := all_enabled (lit "Looks promising.")))
      sample_state empty_world = (w', Ok s') /\
    read_file (w_fs w') (output_dir sample_state) (lit "01-idea-validation.md")
      = Some (lit "# Idea Validation" ++ NEWLINE ++ NEWLINE
                ++ lit "Looks promising.").
Proof.
  apply (enabled_run_idea_validation_file
           (svc := all_enabled (lit "Looks promising."))).
  - intros ? ? ? ? _; reflexivity.
  - intros ? ? ?; reflexivity.
Defined.

(** The world and the state after the user has answered. *)
Definition answered_world : @World recording_sdk :=
  fst (get_user_input (svc := all_disabled) (uni := ascii_unicode)
         answering_world).

Definition answered_state : SideProjectState :=
  match snd (get_user_input (svc := all_disabled) (uni := ascii_unicode)
               answering_world) with
  | Ok s0 => s0
  | Raise _ => sample_state
  end.

Lemma answers_taken :
  get_user_input (svc := all_disabled) (uni := ascii_unicode) answering_world
  = (answered_world, Ok answered_state).
Proof. vm_compute. reflexivity. Qed.

(** The answers are stripped, and the folder is named after the first 30
    characters of the idea. *)
Example answered_state_is_sample :
  answered_state
  = {| user_id := lit "user-20250309-1205";
       idea := idea sample_state;
       target_audience := target_audience sample_state;
       problem_statement := problem_statement sample_state;
       unique_value_prop := unique_value_prop sample_state;
       expected_users := expected_users sample_state;
       budget := budget sample_state;
       team_expertise := team_expertise sample_state;
       idea_validation := [];
       landing_page_copy := [];
       tech_stack := [];
       output_dir := output_dir sample_state |}.
Proof. vm_compute. reflexivity. Qed.

(** A model fault in the first stage ends the run there: nothing is
    assigned and nothing is written. *)
Example model_fault_aborts :
  let run := invoke (build_side_project_graph (svc := model_down))
               sample_state empty_world in
  snd run = Raise (ModelError (lit "overloaded")) /\
  assignments (emitted empty_world (fst run)) = [] /\
  w_fs (fst run) = ∅.
Proof. cbv zeta. repeat split; vm_compute; reflexivity. Qed.

Lemma output_fields_assigned_once_witness :
  tech_stack answered_state = [] /\
  (fst <$> assignments
             (emitted answered_world
                (fst (invoke (build_side_project_graph (svc := all_disabled))
                        answered_state answered_world))))
    `prefix_of` [IdeaValidation; LandingPageCopy; TechStack].
Proof.
  destruct (output_fields_assigned_once
              (svc := all_disabled) (uni := ascii_unicode)
              answering_world answered_world answered_state answers_taken)
    as ((_ & _ & Hts & _) & Hpre & _).
  split; [exact Hts|exact Hpre].
Defined.

Lemma output_dir_shape_witness :
  exists slug : str,
    output_dir answered_state
      = lit "output/" ++ slug ++ lit "-"
          ++ strftime (lit "%Y%m%d-%H%M") noon /\
    (length slug <= 30)%nat.
Proof.
  destruct (output_dir_shape (svc := all_disabled) (uni := ascii_unicode)
              answering_world answered_world answered_state answers_taken)
    as (slug & t & answer & _ & _ & Hclock & Hdir & _ & Hlen & _).
  exists slug. split; [|exact Hlen].
  apply (f_equal (fun l => match l with [t] => t | _ => noon end)) in Hclock.
  vm_compute in Hclock. rewrite <- Hclock in Hdir. exact Hdir.
Defined.

Lemma output_directory_files_witness :
  listdir
    (w_fs (fst (save_outputs_node (svc := all_disabled)
                  sample_state empty_world)))
    (output_dir sample_state)
  = output_file_names.
Proof.
  apply (output_directory_files (svc := all_disabled)
           sample_state empty_world).
  unfold listdir, empty_world. cbn [w_fs].
  rewrite lookup_empty. cbn [default from_option id]. rewrite dom_empty_L.
  apply empty_subseteq.
Defined.

Lemma summary_deterministic_witness :
  exists body : str,
    read_file
      (w_fs (fst (save_outputs_node (svc := all_enabled (lit "ok"))
                    sample_state empty_world)))
      (output_dir sample_state) (lit "00-summary.md") = Some body /\
    read_file
      (w_fs (fst (save_outputs_node (svc := all_disabled)
                    (set_output TechStack (lit "Rust") sample_state)
                    cluttered_world)))
      (output_dir sample_state) (lit "00-summary.md") = Some body /\
    body = summary_text sample_state (strftime (lit "%Y-%m-%d %H:%M") noon).
Proof.
  apply (summary_deterministic (all_enabled (lit "ok")) all_disabled
           sample_state (set_output TechStack (lit "Rust") sample_state)
           empty_world cluttered_world noon);
    reflexivity.
Defined.

Lemma direct_calls_and_graph_witness :
  length (file_writes
            (emitted empty_world
               (fst (invoke (build_side_project_graph
                               (svc := all_enabled (lit "ok")))
                       sample_state empty_world))))
  = 4%nat.
Proof.
  destruct (direct_calls_and_graph (svc := all_enabled (lit "ok"))
              sample_state empty_world) as (_ & _ & _ & Hdone).
  exact (proj2 (proj2 (Hdone _ eq_refl))).
Defined.

(** *** Where the specification, as first stated, fails *)

(** C1.  With every config enabled and a model that answers, the direct
    calls and the graph, started from the same state in the same world,
    do not show the same behaviour: the direct calls leave no assignment,
    no model call and no file, the graph run leaves three, three and
    four. *)
Lemma direct_calls_differ_from_graph :
  let direct :=
    fst (Launcher.main_on (svc := all_enabled (lit "ok"))
           sample_state empty_world) in
  let graph :=
    fst (invoke (build_side_project_graph (svc := all_enabled (lit "ok")))
           sample_state empty_world) in
  observable_behaviour empty_world direct
    <> observable_behaviour empty_world graph /\
  llm_calls (emitted empty_world direct) = [] /\
  length (llm_calls (emitted empty_world graph)) = 3%nat /\
  w_fs direct = ∅ /\
  listdir (w_fs graph) (output_dir sample_state) = output_file_names.
Proof.
  cbv zeta. split; [|split; [|split; [|split]]].
  - intros H.
    apply (f_equal (fun o => length (snd (fst o)))) in H.
    vm_compute in H. discriminate H.
  - vm_compute. reflexivity.
  - vm_compute. reflexivity.
  - vm_compute. reflexivity.
  - rewrite invoke_graph_sequence.
    apply (bool_decide_unpack _). vm_compute. exact I.
Qed.

(** C4.  The output folder exists and holds notes.txt: after the run it
    holds five files, notes.txt among them. *)
Lemma extra_file_remains :
  let after_run :=
    fst (save_outputs_node (svc := all_disabled) sample_state cluttered_world) in
  snd (save_outputs_node (svc := all_disabled) sample_state cluttered_world)
    = Ok sample_state /\
  listdir (w_fs after_run) (output_dir sample_state) <> output_file_names /\
  lit "notes.txt" ∈ listdir (w_fs after_run) (output_dir sample_state) /\
  size (listdir (w_fs after_run) (output_dir sample_state)) = 5%nat.
Proof.
  cbv zeta. split; [|split; [|split]].
  - vm_compute. reflexivity.
  - apply (bool_decide_eq_false_1 _). vm_compute. reflexivity.
  - apply (bool_decide_unpack _). vm_compute. exact I.
  - vm_compute. reflexivity.
Qed.


(** C10.  The idea "/" has no alphanumeric character, and its slug is
    "-", not the empty string: the folder is output/--20250309-1205. *)
Lemma slash_idea_slug_not_empty :
  Forall (fun c => chr_isalnum (Unicode := ascii_unicode) c = false) (lit "/") /\
  folder_name_of (uni := ascii_unicode) (lit "/") = lit "-" /\
  (output_dir <$>
     match snd (get_user_input (svc := all_disabled) (uni := ascii_unicode)
                  slash_world) with
     | Ok s0 => Some s0
     | Raise _ => None
     end)
  = Some (lit "output/--20250309-1205").
Proof.
  split; [|split].
  - repeat constructor.
  - vm_compute. reflexivity.
  - vm_compute. reflexivity.
Qed.

(** * Further properties of the two scripts *)

(** ** More observations *)

Section MoreObservations.
Context `{sdk : ContextSDK}.

Definition flushes (t : list Event) : list unit :=
  omap (fun e => match e with EFlush => Some tt | _ => None end) t.

Definition track_calls (t : list Event) : list N :=
  omap (fun e => match e with ETrackSuccess h => Some h | _ => None end) t.

Definition stdin_reads (t : list Event) : list str :=
  omap (fun e => match e with EStdin line => Some line | _ => None end) t.

(** Console and clock only: nothing asked of a service, nothing assigned,
    nothing written. *)
Definition console_only (t : list Event) : Prop :=
  Forall (fun e => match e with
                   | EStdout _ | EStdin _ | EClock _ => True
                   | _ => False
                   end) t.


End MoreObservations.

(** ** get_user_input *)

Section UserInputMore.
Context `{sdk : ContextSDK} `{svc : !Services} `{uni : Unicode}.
Implicit Types (s : SideProjectState) (w : World).

Ltac trace_of_run :=
  erewrite emitted_of_trace;
    [|cbn [w_trace]; rewrite <- ?app_assoc; cbn [app]; reflexivity].

Lemma get_user_input_console w :
  console_only (emitted w (fst (get_user_input w))) /\
  w_fs (fst (get_user_input w)) = w_fs w.
Proof.
  destruct w as [fs stdin trace].
  unfold get_user_input. run_M.
  destruct stdin as [|l1 [|l2 [|l3 [|l4 [|l5 [|l6 [|l7 rest]]]]]]].
  all: split; [|reflexivity].
  all: trace_of_run; repeat constructor.
Qed.

(** X1.  With fewer than seven lines left on standard input,
    [get_user_input] raises EOFError: it has used up the input, has not
    read the clock, and has left the files alone. *)
Theorem get_user_input_eof w :
  (length (w_stdin w) < 7)%nat ->
  snd (get_user_input w) = Raise EOFError /\
  clock_reads (emitted w (fst (get_user_input w))) = [] /\
  stdin_reads (emitted w (fst (get_user_input w))) = w_stdin w /\
  w_stdin (fst (get_user_input w)) = [] /\
  w_fs (fst (get_user_input w)) = w_fs w.
Proof.
  destruct w as [fs stdin trace].
  unfold get_user_input. run_M.
  destruct stdin as [|l1 [|l2 [|l3 [|l4 [|l5 [|l6 [|l7 rest]]]]]]];
    cbn [length]; intros Hlen; try lia.
  all: split; [reflexivity|].
  all: split; [trace_of_run; reflexivity|].
  all: split; [trace_of_run; reflexivity|].
  all: split; reflexivity.
Qed.

(** X2.  With at least seven lines on standard input, [get_user_input]
    returns: it has read exactly the first seven lines and left the
    rest, read the clock once, left the files alone, and the seven input
    fields of the state are those lines, stripped, in the order asked. *)
Theorem get_user_input_reads_seven w (answers rest : list str) :
  length answers = 7%nat ->
  w_stdin w = answers ++ rest ->
  exists w0 s0 t,
    get_user_input w = (w0, Ok s0) /\
    [idea s0; target_audience s0; problem_statement s0; unique_value_prop s0;
     expected_users s0; budget s0; team_expertise s0]
      = str_strip <$> answers /\
    stdin_reads (emitted w w0) = answers /\
    clock_reads (emitted w w0) = [t] /\
    w_stdin w0 = rest /\ w_fs w0 = w_fs w.
Proof.
  intros Hlen Hin.
  destruct answers as [|l1 [|l2 [|l3 [|l4 [|l5 [|l6 [|l7 [|]]]]]]]];
    try discriminate Hlen.
  destruct w as [fs stdin trace]. cbn [w_stdin] in Hin. subst stdin.
  unfold get_user_input. run_M. cbn [app].
  match goal with |- context [clock ?h] => set (tnow := clock h) end.
  eexists _, _, tnow. split; [reflexivity|].
  split; [reflexivity|].
  split; [trace_of_run; reflexivity|].
  split; [trace_of_run; reflexivity|].
  split; reflexivity.
Qed.

(** X3.  The state [get_user_input] returns carries one and the same
    timestamp, of the form YYYYMMDD-HHMM, in its two derived fields:
    user_id is "user-" + timestamp and output_dir ends in "-" +
    timestamp. *)
Theorem user_id_and_output_dir_share_timestamp w w0 s0 :
  get_user_input w = (w0, Ok s0) ->
  exists ts : str,
    timestamp_shape ts /\
    user_id s0 = lit "user-" ++ ts /\
    output_dir s0
      = (lit "output/" ++ folder_name_of (idea s0)) ++ lit "-" ++ ts.
Proof.
  intros Hin.
  destruct (get_user_input_returns _ _ _ Hin)
    as (answers & rest & t & _ & Hs0 & _).
  exists (strftime (lit "%Y%m%d-%H%M") t).
  split; [apply strftime_folder_shape|].
  unfold initial_state_of in Hs0.
  destruct (str_strip <$> answers)
    as [|a1 [|a2 [|a3 [|a4 [|a5 [|a6 [|a7 [|]]]]]]]]; try discriminate.
  injection Hs0 as <-. cbn [user_id output_dir idea].
  split; [reflexivity|]. by rewrite <- !app_assoc.
Qed.

(** X4.  When "/" and the space are not alphanumeric, as in Python, the
    folder name made from an idea holds neither: the output directory is
    one single folder under "output/". *)
Theorem folder_name_single_component (idea : str) :
  chr_isalnum SLASH = false ->
  chr_isalnum SPACE = false ->
  (SLASH ∉ folder_name_of idea) /\ (SPACE ∉ folder_name_of idea).
Proof.
  intros Hslash Hspace.
  pose proof (folder_name_chars idea) as Hall.
  rewrite Forall_forall in Hall.
  split; intros Hin; destruct (Hall _ Hin) as [Heq|Hal];
    try discriminate Heq; congruence.
Qed.

End UserInputMore.

(** ** The output writer, once more *)

Section WriterMore.
Context `{sdk : ContextSDK} `{svc : !Services}.
Implicit Types (s : SideProjectState) (w : World).

Lemma saved_directory_other s generated held (name : str) :
  name ∉ output_file_names ->
  saved_directory s generated held !! name = default ∅ held !! name.
Proof.
  unfold output_file_names, saved_directory. intros Hname.
  rewrite !lookup_insert_ne; [done|..]; intros <-; apply Hname; set_solver.
Qed.


(** X6.  After [save_outputs_node], each of the three result files reads
    back as its heading, a blank line and the corresponding output field
    of the state, and the summary reads back as the summary text for the
    time the run read from the clock; a file of one of these names that
    was there before is overwritten. *)
Theorem saved_files_read_back s w :
  exists t : datetime,
    clock_reads (emitted w (fst (save_outputs_node s w))) = [t] /\
    read_file (w_fs (fst (save_outputs_node s w))) (output_dir s)
      (lit "01-idea-validation.md")
    = Some (lit "# Idea Validation" ++ NEWLINE ++ NEWLINE
              ++ idea_validation s) /\
    read_file (w_fs (fst (save_outputs_node s w))) (output_dir s)
      (lit "02-landing-page.md")
    = Some (lit "# Landing Page Copy" ++ NEWLINE ++ NEWLINE
              ++ landing_page_copy s) /\
    read_file (w_fs (fst (save_outputs_node s w))) (output_dir s)
      (lit "03-tech-stack.md")
    = Some (lit "# Tech Stack Recommendation" ++ NEWLINE ++ NEWLINE
              ++ tech_stack s) /\
    read_file (w_fs (fst (save_outputs_node s w))) (output_dir s)
      (lit "00-summary.md")
    = Some (summary_text s (strftime (lit "%Y-%m-%d %H:%M") t)).
Proof.
  exists (save_time s w).
  destruct (summary_written s w) as [Hclock Hsummary].
  split; [done|]. split; [|split; [|split; [|done]]].
  all: rewrite save_outputs_node_eval; unfold read_file; cbn [fst w_fs].
  all: rewrite lookup_insert_eq; cbn [mbind option_bind].
  all: unfold saved_directory.
  all: rewrite ?(lookup_insert_ne _ (lit "00-summary.md")) by lit_neq.
  all: rewrite ?(lookup_insert_ne _ (lit "03-tech-stack.md")
                   (lit "02-landing-page.md")) by lit_neq.
  all: rewrite ?(lookup_insert_ne _ (lit "03-tech-stack.md")
                   (lit "01-idea-validation.md")) by lit_neq.
  all: rewrite ?(lookup_insert_ne _ (lit "02-landing-page.md")
                   (lit "01-idea-validation.md")) by lit_neq.
  all: by rewrite lookup_insert_eq.
Qed.

Lemma saved_directory_again s generated held :
  saved_directory s generated (Some (saved_directory s generated held))
  = saved_directory s generated held.
Proof.
  apply map_eq. intros name.
  unfold saved_directory at 1. cbn [default from_option id].
  destruct (decide (name ∈ output_file_names)) as [Hin|Hout].
  - unfold output_file_names in Hin.
    apply elem_of_union in Hin as [Hin|Hin%elem_of_singleton];
      [apply elem_of_union in Hin as [Hin|Hin%elem_of_singleton];
       [apply elem_of_union in Hin as [Hin%elem_of_singleton
                                       |Hin%elem_of_singleton]|]|];
      subst name; unfold saved_directory.
    all: rewrite ?(lookup_insert_ne _ (lit "00-summary.md")) by lit_neq.
    all: rewrite ?(lookup_insert_ne _ (lit "03-tech-stack.md")
                     (lit "02-landing-page.md")) by lit_neq.
    all: rewrite ?(lookup_insert_ne _ (lit "03-tech-stack.md")
                     (lit "01-idea-validation.md")) by lit_neq.
    all: rewrite ?(lookup_insert_ne _ (lit "02-landing-page.md")
                     (lit "01-idea-validation.md")) by lit_neq.
    all: by rewrite !lookup_insert_eq.
  - change (<[lit "00-summary.md":=_]> _)
      with (saved_directory s generated
              (Some (saved_directory s generated held))).
    by rewrite saved_directory_other.
Qed.

(** X7.  Running [save_outputs_node] again on the same state, when the
    clock still shows the same minute, leaves the file system exactly as
    the first run left it. *)
Theorem save_outputs_again s w (t1 t2 : datetime) :
  let w1 := fst (save_outputs_node s w) in
  let w2 := fst (save_outputs_node s w1) in
  clock_reads (emitted w w1) = [t1] ->
  clock_reads (emitted w1 w2) = [t2] ->
  strftime (lit "%Y-%m-%d %H:%M") t1 = strftime (lit "%Y-%m-%d %H:%M") t2 ->
  w_fs w2 = w_fs w1.
Proof.
  cbv zeta. intros H1 H2 Hsame.
  rewrite (proj1 (summary_written s w)) in H1.
  rewrite (proj1 (summary_written s _)) in H2.
  injection H1 as H1. injection H2 as H2.
  rewrite (save_outputs_node_eval s (fst (save_outputs_node s w))).
  cbn [fst w_fs]. unfold summary_format. rewrite H2, <- Hsame, <- H1.
  rewrite save_outputs_node_eval. cbn [fst w_fs].
  rewrite lookup_insert_eq, insert_insert_eq.
  unfold summary_format. by rewrite saved_directory_again.
Qed.

End WriterMore.

(** ** Runs of the graph, once more *)

Section RunsMore.
Context `{sdk : ContextSDK} `{svc : !Services}.
Implicit Types (s : SideProjectState) (w : World) (st : Stage).

Ltac outcome_cases H :=
  destruct H as [err H1|s1 err H1 w1 H2|s1 s2 err H1 w1 H2 w2 H3
                |s1 s2 s3 H1 w1 H2 w2 H3 w3];
  try subst w1; try subst w2; try subst w3.




Lemma stage_returned st s w s' :
  stage_result st s w = Ok s' ->
  (get_output (stage_field st) s' = lit "Config not enabled" /\
   llm_calls (stage_events st s w) = []) \/
  (exists model messages,
     llm_calls (stage_events st s w)
     = [(model, messages, Ok (get_output (stage_field st) s'))]).
Proof.
  rewrite llm_calls_stage. unfold stage_result.
  destruct (enabled _).
  - destruct (stage_reply st s w) as [text|]; [|discriminate].
    intros [= <-]. right. eexists _, _. by destruct st.
  - intros [= <-]. left. by destruct st.
Qed.





(** X10.  In the state a graph run returns, the nine input fields are
    those of the initial state, and each of the three output fields
    holds either "Config not enabled" or a text that the model returned
    to a call of this run. *)
Theorem returned_state_provenance s w s' :
  snd (invoke build_side_project_graph s w) = Ok s' ->
  (user_id s' = user_id s /\ idea s' = idea s /\
   target_audience s' = target_audience s /\
   problem_statement s' = problem_statement s /\
   unique_value_prop s' = unique_value_prop s /\
   expected_users s' = expected_users s /\ budget s' = budget s /\
   team_expertise s' = team_expertise s /\ output_dir s' = output_dir s) /\
  (forall f : OutputField,
     get_output f s' = lit "Config not enabled" \/
     exists model messages,
       (model, messages, Ok (get_output f s'))
       ∈ llm_calls (emitted w (fst (invoke build_side_project_graph s w)))).
Proof.
  rewrite invoke_graph_sequence.
  outcome_cases (four_stages_outcome s w);
    intros Heq; try discriminate Heq; injection Heq as ->.
  erewrite emitted_of_trace;
    [|rewrite trace_saved, !trace_after, <- ?app_assoc; reflexivity].
  rewrite !llm_calls_app, llm_calls_save, app_nil_r.
  pose proof (stage_result_field _ _ _ _ H1) as F1.
  pose proof (stage_result_field _ _ _ _ H2) as F2.
  pose proof (stage_result_field _ _ _ _ H3) as F3.
  split.
  - rewrite F3, F2, F1. repeat split.
  - assert (G1 : get_output IdeaValidation s' = get_output IdeaValidation s1)
      by (rewrite F3, F2; reflexivity).
    assert (G2 : get_output LandingPageCopy s' = get_output LandingPageCopy s2)
      by (rewrite F3; reflexivity).
    pose proof (stage_returned _ _ _ _ H1) as R1.
    pose proof (stage_returned _ _ _ _ H2) as R2.
    pose proof (stage_returned _ _ _ _ H3) as R3.
    cbn [stage_field] in R1, R2, R3.
    intros [| |].
    + rewrite G1.
      destruct R1 as [[-> _]|(m & ms & ->)]; [by left|right].
      exists m, ms. set_solver.
    + rewrite G2.
      destruct R2 as [[-> _]|(m & ms & ->)]; [by left|right].
      exists m, ms. set_solver.
    + destruct R3 as [[-> _]|(m & ms & ->)]; [by left|right].
      exists m, ms. set_solver.
Qed.

(** X11.  A stage reports success to the tracker of the config it
    fetched exactly when the model returned text, once; with the config
    disabled, or when the model call fails, nothing is tracked. *)
Theorem success_tracked_when_model_answers st s w :
  exists cfg : AIConfig,
    config_fetches (emitted w (fst (stage_node st s w)))
      = [(stage_key st, stage_context s, stage_variables st s, cfg)] /\
    track_calls (emitted w (fst (stage_node st s w)))
      = match llm_calls (emitted w (fst (stage_node st s w))) with
        | [(_, _, Ok _)] => [tracker cfg]
        | _ => []
        end.
Proof.
  exists (stage_config st s w).
  rewrite stage_emitted. unfold stage_events.
  destruct (enabled (stage_config st s w));
    [destruct (stage_reply st s w)|]; by split.
Qed.

End RunsMore.

(** ** The direct calls, once more *)

Section LauncherMore.
Context `{sdk : ContextSDK} `{svc : !Services}.
Implicit Types (s : SideProjectState) (w : World).

(** What one of the three direct calls does: one fetch of the named
    config, and the config handed back when it is enabled, [None] when
    it is not. *)
Definition fetch_outcome (key : str) (user : str) (variables : list (str * str))
    (w : World) (run : World * Result (option AIConfig)) : Prop :=
  exists cfg : AIConfig,
    config_fetches (emitted w (fst run))
      = [(key, builder_build (Context_builder user), variables, cfg)] /\
    snd run = Ok (if enabled cfg then Some cfg else None) /\
    llm_calls (emitted w (fst run)) = [] /\
    w_fs (fst run) = w_fs w.

(** X12.  Each of [validate_idea], [write_landing_page] and
    [recommend_tech_stack] fetches its named config once, for the
    context of the given user and with its three variables, and returns
    that config when it is enabled and None when it is not; it calls no
    model and writes no file. *)
Theorem direct_calls_return_enabled_config
    (user a b c : str) w :
  fetch_outcome (lit "idea-validator") user
    [(lit "idea", a); (lit "target_audience", b);
     (lit "problem_statement", c)]
    w (Launcher.validate_idea user a b c w) /\
  fetch_outcome (lit "landing-page-writer") user
    [(lit "idea", a); (lit "target_audience", b);
     (lit "unique_value_prop", c)]
    w (Launcher.write_landing_page user a b c w) /\
  fetch_outcome (lit "tech-stack-advisor") user
    [(lit "expected_users", a); (lit "budget", b);
     (lit "team_expertise", c)]
    w (Launcher.recommend_tech_stack user a b c w).
Proof.
  destruct w as [fs stdin trace]. unfold fetch_outcome.
  repeat split.
  all: run_launcher.
  all: match goal with |- context [enabled ?x] =>
         exists x; destruct (enabled x) end.
  all: cbn [fst snd w_fs].
  all: (erewrite emitted_of_trace;
        [|cbn [w_trace]; rewrite <- ?app_assoc; cbn [app]; reflexivity]).
  all: repeat split.
Qed.

(** X13.  The main block of side_project_launcher.py always returns,
    whatever the three configs are: it flushes the SDK's events exactly
    once, reads nothing from standard input and tracks nothing. *)
Theorem launcher_main_flushes_once s w :
  snd (Launcher.main_on s w) = Ok tt /\
  flushes (emitted w (fst (Launcher.main_on s w))) = [tt] /\
  track_calls (emitted w (fst (Launcher.main_on s w))) = [] /\
  w_stdin (fst (Launcher.main_on s w)) = w_stdin w.
Proof.
  destruct w as [fs stdin trace].
  run_launcher.
  repeat match goal with
         | |- context [enabled ?c] => destruct (enabled c)
         end.
  all: cbn [fst snd w_stdin].
  all: (erewrite emitted_of_trace;
        [|cbn [w_trace]; rewrite <- ?app_assoc; cbn [app]; reflexivity]).
  all: repeat split.
Qed.

End LauncherMore.

(** ** The whole LangGraph script *)

Section MainMore.
Context `{sdk : ContextSDK} `{svc : !Services} `{uni : Unicode}.
Implicit Types (s : SideProjectState) (w : World) (st : Stage).




Lemma config_fetches_app (a b : list Event) :
  config_fetches (a ++ b) = config_fetches a ++ config_fetches b.
Proof. apply omap_app. Qed.





End MainMore.

(** ** Concrete runs, once more *)

Lemma get_user_input_eof_witness :
  snd (get_user_input (svc := all_disabled) (uni := ascii_unicode) empty_world)
  = Raise EOFError.
Proof.
  apply (get_user_input_eof (svc := all_disabled) (uni := ascii_unicode)
           empty_world).
  cbn. lia.
Defined.

Lemma get_user_input_reads_seven_witness :
  exists w0 s0 t,
    get_user_input (svc := all_disabled) (uni := ascii_unicode) answering_world
      = (w0, Ok s0) /\
    [idea s0; target_audience s0; problem_statement s0; unique_value_prop s0;
     expected_users s0; budget s0; team_expertise s0]
      = str_strip (Unicode := ascii_unicode) <$> w_stdin answering_world /\
    stdin_reads (emitted answering_world w0) = w_stdin answering_world /\
    clock_reads (emitted answering_world w0) = [t] /\
    w_stdin w0 = [] /\ w_fs w0 = w_fs answering_world.
Proof.
  apply (get_user_input_reads_seven (svc := all_disabled)
           (uni := ascii_unicode) answering_world
           (w_stdin answering_world) []).
  - reflexivity.
  - reflexivity.
Defined.

Lemma user_id_and_output_dir_share_timestamp_witness :
  exists ts : str,
    timestamp_shape ts /\
    user_id answered_state = lit "user-" ++ ts /\
    output_dir answered_state
      = (lit "output/"
           ++ folder_name_of (uni := ascii_unicode) (idea answered_state))
          ++ lit "-" ++ ts.
Proof.
  exact (user_id_and_output_dir_share_timestamp
           (svc := all_disabled) (uni := ascii_unicode)
           answering_world answered_world answered_state answers_taken).
Defined.

Lemma folder_name_single_component_witness :
  (SLASH ∉ folder_name_of (uni := ascii_unicode) (lit "a/b c")) /\
  (SPACE ∉ folder_name_of (uni := ascii_unicode) (lit "a/b c")).
Proof.
  apply (folder_name_single_component (uni := ascii_unicode));
    vm_compute; reflexivity.
Defined.


Lemma save_outputs_again_witness :
  w_fs (fst (save_outputs_node (svc := all_disabled) sample_state
               (fst (save_outputs_node (svc := all_disabled)
                       sample_state cluttered_world))))
  = w_fs (fst (save_outputs_node (svc := all_disabled)
                 sample_state cluttered_world)).
Proof.
  apply (save_outputs_again (svc := all_disabled)
           sample_state cluttered_world noon noon);
    vm_compute; reflexivity.
Defined.



Lemma returned_state_provenance_witness :
  idea (set_output TechStack (lit "ok")
          (set_output LandingPageCopy (lit "ok")
             (set_output IdeaValidation (lit "ok") sample_state)))
  = idea sample_state.
Proof.
  destruct (returned_state_provenance (svc := all_enabled (lit "ok"))
              sample_state empty_world
              (set_output TechStack (lit "ok")
                 (set_output LandingPageCopy (lit "ok")
                    (set_output IdeaValidation (lit "ok") sample_state)))
              ltac:(vm_compute; reflexivity))
    as ((_ & Hidea & _) & _).
  exact Hidea.
Defined.
